(** * allauth.socialaccount.models: the login session [SocialLogin]

    A shallow embedding of [src/allauth/socialaccount/models.py].

    Python objects are mutable and shared, so model instances live in a
    heap of objects addressed by locations; the database tables behind
    [Model.objects] are finite maps from primary keys to rows.  Methods
    are computations in a state-and-exception monad in which the state
    survives a raised exception, as it does in Python. *)

From Stdlib Require Import ZArith.
From stdpp Require Import gmap strings list fin_maps.

Open Scope string_scope.

(** ** Exceptions *)

Inductive model := UserModel | SocialAccountModel | SocialTokenModel.

Inductive exn :=
| AssertionError
| PermissionDenied
| AttributeError
| KeyError (key : string)
| TypeError
| ValueError
| IntegrityError
| DoesNotExist (m : model)
| MultipleObjectsReturned (m : model).

Global Instance model_eq_dec : EqDecision model.
Proof. solve_decision. Defined.

Global Instance exn_eq_dec : EqDecision exn.
Proof. solve_decision. Defined.

(** ** The monad of methods: state passing, the state outlives a raise *)

Definition M (S A : Type) : Type := S → S * (exn + A).

Definition ret {S A} (x : A) : M S A := λ s, (s, inr x).

Definition raise {S A} (e : exn) : M S A := λ s, (s, inl e).

Definition bind {S A B} (m : M S A) (k : A → M S B) : M S B :=
  λ s, match m s with
       | (s', inl e) => (s', inl e)
       | (s', inr x) => k x s'
       end.

(** [try: body except e: handler] *)
Definition try_except {S A} (body : M S A) (e : exn) (handler : M S A) : M S A :=
  λ s, match body s with
       | (s', inl e') => if decide (e' = e) then handler s' else (s', inl e')
       | r => r
       end.

Definition gets {S A} (f : S → A) : M S A := λ s, (s, inr (f s)).

Definition modify {S} (f : S → S) : M S unit := λ s, (f s, inr tt).

(** [assert b] *)
Definition assert {S} (b : bool) : M S unit :=
  if b then ret tt else raise AssertionError.

Global Instance M_ret {S} : MRet (M S) := λ A, ret.
Global Instance M_bind {S} : MBind (M S) := λ A B k m, bind m k.

(** ** Model instances *)

Abbreviation loc := positive (only parsing).
Abbreviation key := positive (only parsing).

(** A foreign-key attribute of an instance: never assigned, assigned a
    Python object, or loaded from a row and not fetched yet. *)
Inductive fk := FkUnset | FkObj (l : loc) | FkId (k : key).

(** The provider's profile payload, a JSON value. *)
#[local] Set Warnings "-register-all".
Inductive json :=
| JNull
| JBool (b : bool)
| JNum (n : Z)
| JStr (s : string)
| JList (l : list json)
| JObj (o : list (string * json)).

(** The user model ([get_user_model()]): the project's own, named by a
    setting; of its fields the primary key, the name and the address. *)
Module User.
Record t := mk { pk : option key; username : string; email : string }.
Definition set_pk (v : option key) (u : t) : t :=
  mk v (username u) (email u).
End User.

Module SocialAccount.
Record t := mk {
  pk : option key;
  user : fk;
  provider : string;
  uid : string;
  last_login : option Z;
  date_joined : option Z;
  extra_data : json
}.
Definition set_pk (v : option key) (a : t) : t :=
  mk v (user a) (provider a) (uid a) (last_login a) (date_joined a) (extra_data a).
Definition set_user (v : fk) (a : t) : t :=
  mk (pk a) v (provider a) (uid a) (last_login a) (date_joined a) (extra_data a).
Definition set_last_login (v : option Z) (a : t) : t :=
  mk (pk a) (user a) (provider a) (uid a) v (date_joined a) (extra_data a).
Definition set_date_joined (v : option Z) (a : t) : t :=
  mk (pk a) (user a) (provider a) (uid a) (last_login a) v (extra_data a).
Definition set_extra_data (v : json) (a : t) : t :=
  mk (pk a) (user a) (provider a) (uid a) (last_login a) (date_joined a) v.
End SocialAccount.

(** A [SocialApp] is admin-managed and always stored; a token refers to
    it by its primary key. *)
Module SocialToken.
Record t := mk {
  pk : option key;
  app : key;
  account : fk;
  active : bool;
  token : string;
  token_secret : string;
  expires_at : option Z
}.
Definition set_pk (v : option key) (x : t) : t :=
  mk v (app x) (account x) (active x) (token x) (token_secret x) (expires_at x).
Definition set_account (v : fk) (x : t) : t :=
  mk (pk x) (app x) v (active x) (token x) (token_secret x) (expires_at x).
Definition set_token (v : string) (x : t) : t :=
  mk (pk x) (app x) (account x) (active x) v (token_secret x) (expires_at x).
Definition set_token_secret (v : string) (x : t) : t :=
  mk (pk x) (app x) (account x) (active x) (token x) v (expires_at x).
Definition set_expires_at (v : option Z) (x : t) : t :=
  mk (pk x) (app x) (account x) (active x) (token x) (token_secret x) v.
End SocialToken.

(** [allauth.account.models.EmailAddress], as far as a login session
    carries it: a list of values retrieved from the provider. *)
Module EmailAddress.
Record t := mk { email : string; verified : bool; primary : bool }.
End EmailAddress.

(** The attributes of a [SocialLogin] object.  Each of [token], [user]
    and [account] is a reference that may be [None]. *)
Record SocialLogin := mkSocialLogin {
  token : option loc;
  user : option loc;
  account : option loc;
  email_addresses : list EmailAddress.t;
  state : gmap string string
}.

Definition set_token (v : option loc) (s : SocialLogin) : SocialLogin :=
  mkSocialLogin v (user s) (account s) (email_addresses s) (state s).
Definition set_user (v : option loc) (s : SocialLogin) : SocialLogin :=
  mkSocialLogin (token s) v (account s) (email_addresses s) (state s).
Definition set_account (v : option loc) (s : SocialLogin) : SocialLogin :=
  mkSocialLogin (token s) (user s) v (email_addresses s) (state s).
Definition set_email_addresses (v : list EmailAddress.t) (s : SocialLogin) : SocialLogin :=
  mkSocialLogin (token s) (user s) (account s) v (state s).
Definition set_state (v : gmap string string) (s : SocialLogin) : SocialLogin :=
  mkSocialLogin (token s) (user s) (account s) (email_addresses s) v.

(** ** The world: the heap of objects, the tables, the clock *)

Record World := mkWorld {
  users : gmap loc User.t;
  accounts : gmap loc SocialAccount.t;
  tokens : gmap loc SocialToken.t;
  logins : gmap loc SocialLogin;
  User_objects : gmap key User.t;
  SocialAccount_objects : gmap key SocialAccount.t;
  SocialToken_objects : gmap key SocialToken.t;
  EmailAddress_objects : list (option key * EmailAddress.t);
  now : Z
}.

(** A cell is one component of the world that maps locations (or
    primary keys) to values: a part of the heap, or a table. *)
Record Cell (A : Type) := mkCell {
  cell_get : World → gmap positive A;
  cell_set : gmap positive A → World → World
}.
Arguments mkCell {A} _ _.
Arguments cell_get {A} _ _.
Arguments cell_set {A} _ _ _.

Definition users_cell : Cell User.t :=
  mkCell users (λ m w, mkWorld m (accounts w) (tokens w) (logins w)
    (User_objects w) (SocialAccount_objects w) (SocialToken_objects w)
    (EmailAddress_objects w) (now w)).
Definition accounts_cell : Cell SocialAccount.t :=
  mkCell accounts (λ m w, mkWorld (users w) m (tokens w) (logins w)
    (User_objects w) (SocialAccount_objects w) (SocialToken_objects w)
    (EmailAddress_objects w) (now w)).
Definition tokens_cell : Cell SocialToken.t :=
  mkCell tokens (λ m w, mkWorld (users w) (accounts w) m (logins w)
    (User_objects w) (SocialAccount_objects w) (SocialToken_objects w)
    (EmailAddress_objects w) (now w)).
Definition logins_cell : Cell SocialLogin :=
  mkCell logins (λ m w, mkWorld (users w) (accounts w) (tokens w) m
    (User_objects w) (SocialAccount_objects w) (SocialToken_objects w)
    (EmailAddress_objects w) (now w)).
Definition User_table : Cell User.t :=
  mkCell User_objects (λ m w, mkWorld (users w) (accounts w) (tokens w) (logins w)
    m (SocialAccount_objects w) (SocialToken_objects w)
    (EmailAddress_objects w) (now w)).
Definition SocialAccount_table : Cell SocialAccount.t :=
  mkCell SocialAccount_objects (λ m w, mkWorld (users w) (accounts w) (tokens w) (logins w)
    (User_objects w) m (SocialToken_objects w)
    (EmailAddress_objects w) (now w)).
Definition SocialToken_table : Cell SocialToken.t :=
  mkCell SocialToken_objects (λ m w, mkWorld (users w) (accounts w) (tokens w) (logins w)
    (User_objects w) (SocialAccount_objects w) m
    (EmailAddress_objects w) (now w)).
Definition set_EmailAddress_objects (v : list (option key * EmailAddress.t))
    (w : World) : World :=
  mkWorld (users w) (accounts w) (tokens w) (logins w)
    (User_objects w) (SocialAccount_objects w) (SocialToken_objects w) v (now w).

(** *** Objects: creation, attribute access, assignment *)

(** A new object at a location no object of its class occupies. *)
Definition new {A} (c : Cell A) (x : A) : M World loc :=
  λ w, let l := fresh (dom (cell_get c w)) in
       (cell_set c (<[l := x]> (cell_get c w)) w, inr l).

(** [r.attr]: reading through [None] raises [AttributeError]; a location
    outside the heap stands for [None]. *)
Definition deref {A} (c : Cell A) (r : option loc) : M World A :=
  λ w, match r with
       | Some l => match cell_get c w !! l with
                   | Some x => (w, inr x)
                   | None => (w, inl AttributeError)
                   end
       | None => (w, inl AttributeError)
       end.

(** [r.attr = v], as an update [f] of the object's attributes. *)
Definition setattr {A} (c : Cell A) (r : option loc) (f : A → A) : M World unit :=
  λ w, match r with
       | Some l => match cell_get c w !! l with
                   | Some x => (cell_set c (<[l := f x]> (cell_get c w)) w, inr tt)
                   | None => (w, inl AttributeError)
                   end
       | None => (w, inl AttributeError)
       end.

(** *** The model layer (django.db.models), as this module uses it

    [Model.save()] creates the row under a new primary key when the
    instance has none and writes the row under its key otherwise.  The
    database refuses, with [IntegrityError], a row whose foreign key is
    not set and a row that repeats the [unique_together] values of
    another row. *)

(** The key written for a foreign-key attribute; [save()] refuses an
    assigned object that was never saved. *)
Definition related_id {B} (target : Cell B) (pk_of : B → option key)
    (f : fk) : M World fk :=
  match f with
  | FkUnset => mret FkUnset
  | FkId k => mret (FkId k)
  | FkObj l =>
      x ← deref target (Some l);
      match pk_of x with
      | Some k => mret (FkId k)
      | None => raise ValueError
      end
  end.

Definition pk_on_save {A} (table : Cell A) (pk : option key) : M World key :=
  match pk with
  | Some k => mret k
  | None => gets (λ w, fresh (dom (cell_get table w)))
  end.

(** The rows of a table that satisfy a filter. *)
Definition select {A} (matches : A → bool) (rows : gmap key A) : list (key * A) :=
  map_to_list (filter (λ kr, matches kr.2 = true) rows).

Definition account_matches (provider uid : string) (r : SocialAccount.t) : bool :=
  bool_decide (SocialAccount.provider r = provider ∧ SocialAccount.uid r = uid).

(** A filter [account=instance] compares the row's key with the
    instance's primary key. *)
Definition token_matches (account_pk : option key) (app : key)
    (r : SocialToken.t) : bool :=
  match account_pk, SocialToken.account r with
  | Some k, FkId k' => bool_decide (k' = k)
  | _, _ => false
  end && bool_decide (SocialToken.app r = app).

(** The accounts that stored tokens refer to. *)
Definition referenced_accounts (w : World) : gset key :=
  list_to_set
    (omap (λ kr : key * SocialToken.t,
             match SocialToken.account kr.2 with
             | FkId k => Some k
             | _ => None
             end)
          (map_to_list (SocialToken_objects w))).

(** The key of a new account: keys are not given twice and a token can
    only refer to an account that is stored, so it is a key that no
    account has and no stored token refers to. *)
Definition new_account_key (w : World) : key :=
  fresh (dom (SocialAccount_objects w) ∪ referenced_accounts w).

Definition account_pk_on_save (pk : option key) : M World key :=
  match pk with
  | Some k => mret k
  | None => gets new_account_key
  end.

(** [unique_together]: a row other than the one under [k] has the same
    values. *)
Definition conflicts {A} (same : A → bool) (rows : gmap key A) (k : key) : bool :=
  match select same (delete k rows) with
  | [] => false
  | _ => true
  end.

Definition fk_key (f : fk) : option key :=
  match f with
  | FkId k => Some k
  | _ => None
  end.

(** The database refuses a row without its foreign key (NOT NULL) and a
    row in conflict with another. *)
Definition refused (f : fk) (conflict : bool) : bool :=
  match f with
  | FkId _ => conflict
  | _ => true
  end.

Definition User_save (self : option loc) : M World unit :=
  u ← deref users_cell self;
  k ← pk_on_save User_table (User.pk u);
  _ ← setattr users_cell self (User.set_pk (Some k));
  modify (λ w, cell_set User_table
                 (<[k := User.set_pk (Some k) u]> (User_objects w)) w).

(** [last_login] is [auto_now], [date_joined] is [auto_now_add]: set on
    the instance before the row is written. *)
Definition auto_now (t : Z) (add : bool) (a : SocialAccount.t) : SocialAccount.t :=
  SocialAccount.set_last_login (Some t)
    (if add then SocialAccount.set_date_joined (Some t) a else a).

(** The instance after a successful [save()]: the primary key is set too. *)
Definition auto_fields (k : key) (t : Z) (add : bool)
    (a : SocialAccount.t) : SocialAccount.t :=
  SocialAccount.set_pk (Some k) (auto_now t add a).

(** [unique_together = ('provider', 'uid')]; [user] is not null. *)
Definition SocialAccount_save (self : option loc) : M World unit :=
  a ← deref accounts_cell self;
  owner ← related_id users_cell User.pk (SocialAccount.user a);
  k ← account_pk_on_save (SocialAccount.pk a);
  t ← gets now;
  add ← gets (λ w, bool_decide (SocialAccount_objects w !! k = None));
  rows ← gets SocialAccount_objects;
  if refused owner
       (conflicts (account_matches (SocialAccount.provider a) (SocialAccount.uid a)) rows k)
  then
    _ ← setattr accounts_cell self (auto_now t add);
    raise IntegrityError
  else
    _ ← setattr accounts_cell self (auto_fields k t add);
    modify (λ w, cell_set SocialAccount_table
                   (<[k := SocialAccount.set_user owner (auto_fields k t add a)]>
                      (SocialAccount_objects w)) w).

(** [unique_together = ('app', 'account')]; [account] is not null. *)
Definition SocialToken_save (self : option loc) : M World unit :=
  t ← deref tokens_cell self;
  acc ← related_id accounts_cell SocialAccount.pk (SocialToken.account t);
  k ← pk_on_save SocialToken_table (SocialToken.pk t);
  rows ← gets SocialToken_objects;
  if refused acc (conflicts (token_matches (fk_key acc) (SocialToken.app t)) rows k)
  then raise IntegrityError
  else
    _ ← setattr tokens_cell self (SocialToken.set_pk (Some k));
    modify (λ w, cell_set SocialToken_table
                   (<[k := SocialToken.set_account acc (SocialToken.set_pk (Some k) t)]>
                      (SocialToken_objects w)) w).

(** [Model.objects.get]: the one row that matches, as a new
    instance. *)
Definition objects_get {A} (table heap : Cell A) (set_pk : option key → A → A)
    (m : model) (matches : A → bool) : M World loc :=
  rows ← gets (cell_get table);
  match select matches rows with
  | [] => raise (DoesNotExist m)
  | [kr] => new heap (set_pk (Some kr.1) kr.2)
  | _ => raise (MultipleObjectsReturned m)
  end.

(** [SocialAccount.objects.get(provider=..., uid=...)] *)
Definition SocialAccount_objects_get (provider uid : string) : M World loc :=
  objects_get SocialAccount_table accounts_cell SocialAccount.set_pk
    SocialAccountModel (account_matches provider uid).

(** [SocialToken.objects.get(account=..., app=...)] *)
Definition SocialToken_objects_get (account : option loc) (app : key) : M World loc :=
  a ← deref accounts_cell account;
  objects_get SocialToken_table tokens_cell SocialToken.set_pk
    SocialTokenModel (token_matches (SocialAccount.pk a) app).

(** Reading a foreign-key attribute ([account.user], [token.account]): the
    assigned object, or the referenced row fetched as a new instance and
    kept on the owner.  Both keys are not null: reading one that was never
    set raises [RelatedObjectDoesNotExist], a [DoesNotExist] of the
    related model, and so does a key without its row. *)
Definition getattr_fk {A B} (owner : Cell A) (get_fk : A → fk)
    (set_fk : fk → A → A) (table heap : Cell B)
    (set_pk : option key → B → B) (m : model)
    (self : option loc) : M World (option loc) :=
  x ← deref owner self;
  match get_fk x with
  | FkUnset => raise (DoesNotExist m)
  | FkObj l => mret (Some l)
  | FkId k =>
      rows ← gets (cell_get table);
      match rows !! k with
      | Some row =>
          l ← new heap (set_pk (Some k) row);
          _ ← setattr owner self (set_fk (FkObj l));
          mret (Some l)
      | None => raise (DoesNotExist m)
      end
  end.

Definition SocialAccount_user : option loc → M World (option loc) :=
  getattr_fk accounts_cell SocialAccount.user SocialAccount.set_user
    User_table users_cell User.set_pk UserModel.

Definition SocialToken_account : option loc → M World (option loc) :=
  getattr_fk tokens_cell SocialToken.account SocialToken.set_account
    SocialAccount_table accounts_cell SocialAccount.set_pk SocialAccountModel.

(** The value stored by [owner.fk = value]. *)
Definition assigned (value : option loc) : fk :=
  match value with
  | Some l => FkObj l
  | None => FkUnset
  end.

(** [Model.__eq__]: [x == y] for an instance [x]; [y] may be [None].
    Instances without a primary key are equal only to themselves. *)
Definition Model_eq {A} (c : Cell A) (pk_of : A → option key)
    (x : loc) (y : option loc) : M World bool :=
  a ← deref c (Some x);
  match y with
  | None => mret false
  | Some ly =>
      match pk_of a with
      | None => mret (bool_decide (x = ly))
      | Some k => b ← deref c y; mret (bool_decide (pk_of b = Some k))
      end
  end.

(** Truth value of an optional reference or key ([if token:],
    [not self.account.pk]): model instances are always true, and keys
    are positive. *)
Definition truthy {A} (o : option A) : bool :=
  match o with
  | Some _ => true
  | None => false
  end.

(** ** The request and its session store *)

Record Request := mkRequest {
  GET : gmap string string;
  POST : gmap string string;
  session : gmap string (gmap string string * string)
}.

Definition set_session (v : gmap string (gmap string string * string))
    (r : Request) : Request :=
  mkRequest (GET r) (POST r) v.

(** What the serialized form of a login holds under its keys. *)
Inductive pyval (Blob : Type) :=
| PInstance (b : Blob)
| PDict (d : gmap string string)
| PList (l : list Blob).
Arguments PInstance {Blob} _.
Arguments PDict {Blob} _.
Arguments PList {Blob} _.

(** The adapter's instance serializer ([get_adapter().serialize_instance]
    and [deserialize_instance]), one pair per model class. *)
Class InstanceCodec (Blob A : Type) := {
  serialize_instance : A → Blob;
  deserialize_instance : Blob → exn + A
}.

(** [data[k]] *)
Definition getitem {S V} (data : gmap string V) (k : string) : M S V :=
  match data !! k with
  | Some v => mret v
  | None => raise (KeyError k)
  end.

(** Lifting a result that touches no state. *)
Definition lift {S A} (r : exn + A) : M S A := λ s, (s, r).

Definition as_instance {S Blob} (v : pyval Blob) : M S Blob :=
  match v with
  | PInstance b => mret b
  | _ => raise TypeError
  end.

Definition as_list {S Blob} (v : pyval Blob) : M S (list Blob) :=
  match v with
  | PList l => mret l
  | _ => raise TypeError
  end.

Definition as_dict {S Blob} (v : pyval Blob) : M S (gmap string string) :=
  match v with
  | PDict d => mret d
  | _ => raise TypeError
  end.

(** The [for] loop of [deserialize] over the serialized addresses. *)
Fixpoint deserialize_each {S Blob A} `{!InstanceCodec Blob A}
    (l : list Blob) : M S (list A) :=
  match l with
  | [] => mret []
  | ea :: l' =>
      email_address ← lift (deserialize_instance ea);
      rest ← deserialize_each l';
      mret (email_address :: rest)
  end.

(** ** class SocialLogin *)

Section SocialLogin.

(** [app_settings.STORE_TOKENS] *)
Variable STORE_TOKENS : bool.

(** Modelled from the spec: [allauth.account.utils.setup_user_email] is
    not among the sources; it is the email collaborator
    [setupEmails(user, candidateEmails)] of the external interfaces,
    taken as a parameter that acts on the table of email addresses. *)
Variable setup_user_email :
  Request → User.t → list EmailAddress.t →
  list (option key * EmailAddress.t) → list (option key * EmailAddress.t).

(** [allauth.account.utils.get_next_redirect_url] and
    [allauth.utils.get_request_param], parameters as well. *)
Variable get_next_redirect_url : Request → option string.
Variable get_request_param : Request → string → string → string.

(** The adapter's serializer. *)
Context {Blob : Type}.
Context `{!InstanceCodec Blob User.t, !InstanceCodec Blob SocialAccount.t,
          !InstanceCodec Blob SocialToken.t, !InstanceCodec Blob EmailAddress.t}.

(** [token.account is None or token.account == account] *)
Definition token_account_ok (token account : option loc) : M World bool :=
  bound ← SocialToken_account token;
  match bound with
  | None => mret true
  | Some l => Model_eq accounts_cell SocialAccount.pk l account
  end.

Definition __init__ (user account token : option loc)
    (email_addresses : list EmailAddress.t) : M World loc :=
  _ ← (if truthy token
       then ok ← token_account_ok token account; assert ok
       else mret tt);
  new logins_cell (mkSocialLogin token user account email_addresses ∅).

(** The property [is_existing]: [self.account.pk]. *)
Definition is_existing (self : loc) : M World (option key) :=
  s ← deref logins_cell (Some self);
  a ← deref accounts_cell (account s);
  mret (SocialAccount.pk a).

Definition save (self : loc) (request : Request) (connect : bool) : M World unit :=
  existing ← is_existing self;
  _ ← assert (negb (truthy existing));
  s ← deref logins_cell (Some self);
  let user := user s in
  _ ← User_save user;
  _ ← setattr accounts_cell (account s) (SocialAccount.set_user (assigned user));
  _ ← SocialAccount_save (account s);
  _ ← (if STORE_TOKENS && truthy (token s)
       then
         _ ← setattr tokens_cell (token s)
               (SocialToken.set_account (assigned (account s)));
         SocialToken_save (token s)
       else mret tt);
  if connect
  then mret tt
  else
    u ← deref users_cell user;
    modify (λ w, set_EmailAddress_objects
                   (setup_user_email request u (email_addresses s)
                      (EmailAddress_objects w)) w).

Definition connect (self : loc) (request : Request) (user : option loc) : M World unit :=
  _ ← setattr logins_cell (Some self) (set_user user);
  save self request true.

(** The token part of [lookup], for the stored account [a]. *)
Definition lookup_token (self : loc) (a : loc) : M World unit :=
  s ← deref logins_cell (Some self);
  if STORE_TOKENS && truthy (token s)
  then
    candidate ← deref tokens_cell (token s);
    _ ← assert (negb (truthy (SocialToken.pk candidate)));
    try_except
      (t ← SocialToken_objects_get (account s) (SocialToken.app candidate);
       _ ← setattr tokens_cell (Some t)
             (SocialToken.set_token (SocialToken.token candidate));
       _ ← (if bool_decide (SocialToken.token_secret candidate ≠ "")
            then setattr tokens_cell (Some t)
                   (SocialToken.set_token_secret (SocialToken.token_secret candidate))
            else mret tt);
       _ ← setattr tokens_cell (Some t)
             (SocialToken.set_expires_at (SocialToken.expires_at candidate));
       _ ← SocialToken_save (Some t);
       setattr logins_cell (Some self) (set_token (Some t)))
      (DoesNotExist SocialTokenModel)
      (_ ← setattr tokens_cell (token s)
             (SocialToken.set_account (assigned (Some a)));
       SocialToken_save (token s))
  else mret tt.

Definition lookup (self : loc) : M World unit :=
  existing ← is_existing self;
  _ ← assert (negb (truthy existing));
  try_except
    (s ← deref logins_cell (Some self);
     candidate ← deref accounts_cell (account s);
     a ← SocialAccount_objects_get (SocialAccount.provider candidate)
                                   (SocialAccount.uid candidate);
     _ ← setattr accounts_cell (Some a)
           (SocialAccount.set_extra_data (SocialAccount.extra_data candidate));
     _ ← setattr logins_cell (Some self) (set_account (Some a));
     owner ← SocialAccount_user (Some a);
     _ ← setattr logins_cell (Some self) (set_user owner);
     _ ← SocialAccount_save (Some a);
     lookup_token self a)
    (DoesNotExist SocialAccountModel)
    (mret tt).

Definition serialize (self : loc) : M World (gmap string (pyval Blob)) :=
  s ← deref logins_cell (Some self);
  a ← deref accounts_cell (account s);
  u ← deref users_cell (user s);
  let ret : gmap string (pyval Blob) :=
    <["account" := PInstance (serialize_instance a)]>
    (<["user" := PInstance (serialize_instance u)]>
    (<["state" := PDict (state s)]>
    (<["email_addresses" := PList (serialize_instance <$> email_addresses s)]> ∅))) in
  if truthy (token s)
  then t ← deref tokens_cell (token s);
       mret (<["token" := PInstance (serialize_instance t)]> ret)
  else mret ret.

Definition deserialize (data : gmap string (pyval Blob)) : M World loc :=
  account ← (v ← getitem data "account"; b ← as_instance v;
             a ← lift (deserialize_instance b); new accounts_cell a);
  user ← (v ← getitem data "user"; b ← as_instance v;
          u ← lift (deserialize_instance b); new users_cell u);
  token ← (match data !! "token" with
           | Some v => b ← as_instance v;
                       t ← lift (deserialize_instance b);
                       l ← new tokens_cell t; mret (Some l)
           | None => mret None
           end);
  email_addresses ← (v ← getitem data "email_addresses"; l ← as_list v;
                     deserialize_each l);
  ret ← __init__ None None None [];
  _ ← setattr logins_cell (Some ret) (set_token token);
  _ ← setattr logins_cell (Some ret) (set_account (Some account));
  _ ← setattr logins_cell (Some ret) (set_user (Some user));
  _ ← setattr logins_cell (Some ret) (set_email_addresses email_addresses);
  state ← (v ← getitem data "state"; as_dict v);
  _ ← setattr logins_cell (Some ret) (set_state state);
  mret ret.

Definition get_redirect_url (self : loc) (request : Request) : M World (option string) :=
  s ← deref logins_cell (Some self);
  mret (state s !! "next").

Definition state_from_request (request : Request) : gmap string string :=
  let state : gmap string string := ∅ in
  let state :=
    match get_next_redirect_url request with
    | Some next_url =>
        if bool_decide (next_url ≠ "") then <["next" := next_url]> state else state
    | None => state
    end in
  let state := <["process" := get_request_param request "process" "login"]> state in
  let state := <["scope" := get_request_param request "scope" ""]> state in
  let state := <["auth_params" := get_request_param request "auth_params" ""]> state in
  state.

(** [random_string] is what [get_random_string()] returns in this call. *)
Definition stash_state (random_string : string) : M Request string :=
  state ← gets state_from_request;
  let verifier := random_string in
  _ ← modify (λ request,
        set_session (<["socialaccount_state" := (state, verifier)]> (session request)) request);
  mret verifier.

Definition unstash_state : M Request (gmap string string) :=
  stashed ← gets (λ request, session request !! "socialaccount_state");
  match stashed with
  | None => raise PermissionDenied
  | Some (state, verifier) =>
      _ ← modify (λ request,
            set_session (delete "socialaccount_state" (session request)) request);
      mret state
  end.

Definition verify_and_unstash_state (verifier : string) : M Request (gmap string string) :=
  stashed ← gets (λ request, session request !! "socialaccount_state");
  match stashed with
  | None => raise PermissionDenied
  | Some (state, verifier2) =>
      _ ← modify (λ request,
            set_session (delete "socialaccount_state" (session request)) request);
      if bool_decide (verifier ≠ verifier2)
      then raise PermissionDenied
      else mret state
  end.

End SocialLogin.

(** ** class SocialApp and its manager *)

Module SocialApp.
Record t := mk {
  pk : option positive;
  provider : string;
  name : string;
  type : string;
  client_email : option string;
  client_id : string;
  secret : string;
  key : string;
  pem : string;
  sites : gset positive
}.
Definition set_pk (v : option positive) (x : t) : t :=
  mk v (provider x) (name x) (type x) (client_email x) (client_id x) (secret x)
     (key x) (pem x) (sites x).
End SocialApp.

(** The request object that [get_current] receives: the request, and
    its attribute [_socialapp_cache] when it has been set. *)
Record RequestObject := mkRequestObject {
  http : Request;
  _socialapp_cache : option (gmap string SocialApp.t)
}.

Definition set_socialapp_cache (v : gmap string SocialApp.t) (r : RequestObject)
    : RequestObject :=
  mkRequestObject (http r) (Some v).

(** What [SocialApp.objects.get] raises. *)
Inductive app_exn := SocialApp_DoesNotExist | SocialApp_MultipleObjectsReturned.

(** The filter [sites__id=site_id, provider=provider]. *)
Definition app_matches (site_id : positive) (provider : string) (r : SocialApp.t) : bool :=
  bool_decide (site_id ∈ SocialApp.sites r) && bool_decide (SocialApp.provider r = provider).

(** [self.get(sites__id=site.id, provider=provider)] *)
Definition SocialApp_objects_get (SocialApp_objects : gmap key SocialApp.t)
    (site_id : positive) (provider : string) : app_exn + SocialApp.t :=
  match select (app_matches site_id provider) SocialApp_objects with
  | [] => inl SocialApp_DoesNotExist
  | [kr] => inr (SocialApp.set_pk (Some kr.1) kr.2)
  | _ => inl SocialApp_MultipleObjectsReturned
  end.

Section SocialAppManager.

(** [django.contrib.sites.shortcuts.get_current_site], as the key of the
    site it returns, and the table of applications. *)
Variable get_current_site : option RequestObject → positive.
Variable SocialApp_objects : gmap key SocialApp.t.

(** [get_current(provider, request)]: the argument [request] ([None] or
    an object, which the method updates) is passed in and out. *)
Definition get_current (provider : string) (request : option RequestObject)
    : option RequestObject * (app_exn + SocialApp.t) :=
  let cache : gmap string SocialApp.t := ∅ in
  let cache :=
    match request with
    | Some r => default ∅ (_socialapp_cache r)
    | None => cache
    end in
  let request := set_socialapp_cache cache <$> request in
  match cache !! provider with
  | Some app => (request, inr app)
  | None =>
      let site := get_current_site request in
      match SocialApp_objects_get SocialApp_objects site provider with
      | inr app =>
          let cache := <[provider := app]> cache in
          (set_socialapp_cache cache <$> request, inr app)
      | inl e => (request, inl e)
      end
  end.

End SocialAppManager.

(** * The vocabulary of the properties *)

Definition stashed (request : Request) : option (gmap string string * string) :=
  session request !! "socialaccount_state".

(** The login [self] holds the candidate account [candidate]. *)
Definition candidate_account (w : World) (self : loc) (candidate : SocialAccount.t) : Prop :=
  ∃ s la, logins w !! self = Some s ∧ account s = Some la
          ∧ accounts w !! la = Some candidate.

(** The session holds the candidate token [candidate]. *)
Definition candidate_token (w : World) (self : loc) (candidate : SocialToken.t) : Prop :=
  ∃ s lt, logins w !! self = Some s ∧ token s = Some lt
          ∧ tokens w !! lt = Some candidate.

(** Every reference of the session leads to an object. *)
Definition token_allocated (w : World) (s : SocialLogin) : Prop :=
  ∀ lt, token s = Some lt → is_Some (tokens w !! lt).

(** No stored Social Account has this (provider, uid) pair. *)
Definition no_stored_account (w : World) (provider uid : string) : Prop :=
  ∀ k row, SocialAccount_objects w !! k = Some row →
           ¬ (SocialAccount.provider row = provider ∧ SocialAccount.uid row = uid).

(** A stored Social Account [row] under key [k] has this (provider,
    uid) pair, and it is the only one (unique_together). *)
Definition stored_account (w : World) (provider uid : string)
    (k : key) (row : SocialAccount.t) : Prop :=
  SocialAccount_objects w !! k = Some row
  ∧ SocialAccount.provider row = provider ∧ SocialAccount.uid row = uid
  ∧ ∀ k' row', SocialAccount_objects w !! k' = Some row' →
      SocialAccount.provider row' = provider → SocialAccount.uid row' = uid → k' = k.

(** The owner of a stored account: the user row its foreign key names. *)
Definition stored_owner (w : World) (row : SocialAccount.t)
    (ku : key) (owner : User.t) : Prop :=
  SocialAccount.user row = FkId ku ∧ User_objects w !! ku = Some owner.

(** A stored token [row] under key [kt] belongs to the account with
    key [k] and to [app], and it is the only one (unique_together). *)
Definition stored_token (w : World) (k app : key)
    (kt : key) (row : SocialToken.t) : Prop :=
  SocialToken_objects w !! kt = Some row
  ∧ SocialToken.account row = FkId k ∧ SocialToken.app row = app
  ∧ ∀ kt' row', SocialToken_objects w !! kt' = Some row' →
      SocialToken.account row' = FkId k → SocialToken.app row' = app → kt' = kt.

(** The stored account as [lookup] leaves it in memory and in its row:
    the profile payload is the candidate's; [save()] stamps
    [last_login]. *)
Definition refreshed (w : World) (k : key) (row candidate : SocialAccount.t)
    (owner : fk) : SocialAccount.t :=
  SocialAccount.mk (Some k) owner (SocialAccount.provider row) (SocialAccount.uid row)
    (Some (now w)) (SocialAccount.date_joined row) (SocialAccount.extra_data candidate).

(** The world when [lookup] has reconciled the account and is about to
    turn to the token. *)
Definition account_reconciled (w : World) (self : loc) (s : SocialLogin)
    (k : key) (row candidate : SocialAccount.t) (ku : key) (owner : User.t) : World :=
  let a := fresh (dom (accounts w)) in
  let u := fresh (dom (users w)) in
  mkWorld (<[u := User.set_pk (Some ku) owner]> (users w))
          (<[a := refreshed w k row candidate (FkObj u)]> (accounts w))
          (tokens w)
          (<[self := set_user (Some u) (set_account (Some a) s)]> (logins w))
          (User_objects w)
          (<[k := refreshed w k row candidate (FkId ku)]> (SocialAccount_objects w))
          (SocialToken_objects w)
          (EmailAddress_objects w)
          (now w).

(** The stored token after reconciliation with the candidate. *)
Definition refreshed_token (kt : key) (row candidate : SocialToken.t) : SocialToken.t :=
  SocialToken.mk (Some kt) (SocialToken.app row) (SocialToken.account row)
    (SocialToken.active row) (SocialToken.token candidate)
    (if decide (SocialToken.token_secret candidate = "")
     then SocialToken.token_secret row
     else SocialToken.token_secret candidate)
    (SocialToken.expires_at candidate).

(** No stored token belongs to the account with key [k] and to [app]. *)
Definition no_stored_token (w : World) (k app : key) : Prop :=
  ∀ kt row, SocialToken_objects w !! kt = Some row →
            ¬ (SocialToken.account row = FkId k ∧ SocialToken.app row = app).

(** The world after the token part of [lookup] has refreshed the stored
    token and made it the token of the session [s]. *)
Definition token_refreshed (w : World) (self : loc) (s : SocialLogin)
    (kt : key) (row candidate : SocialToken.t) : World :=
  let t := fresh (dom (tokens w)) in
  mkWorld (users w) (accounts w)
          (<[t := refreshed_token kt row candidate]> (tokens w))
          (<[self := set_token (Some t) s]> (logins w))
          (User_objects w) (SocialAccount_objects w)
          (<[kt := refreshed_token kt row candidate]> (SocialToken_objects w))
          (EmailAddress_objects w) (now w).

(** The candidate token bound to the stored account [a] (with key [k])
    and stored under a new key. *)
Definition bound_token (w : World) (a : loc) (account : fk)
    (candidate : SocialToken.t) : SocialToken.t :=
  SocialToken.mk (Some (fresh (dom (SocialToken_objects w)))) (SocialToken.app candidate)
    account (SocialToken.active candidate) (SocialToken.token candidate)
    (SocialToken.token_secret candidate) (SocialToken.expires_at candidate).

Definition token_bound (w : World) (lt a : loc) (k : key)
    (candidate : SocialToken.t) : World :=
  mkWorld (users w) (accounts w)
          (<[lt := bound_token w a (FkObj a) candidate]> (tokens w))
          (logins w)
          (User_objects w) (SocialAccount_objects w)
          (<[fresh (dom (SocialToken_objects w)) := bound_token w a (FkId k) candidate]>
             (SocialToken_objects w))
          (EmailAddress_objects w) (now w).

(** The key a row is written under by [save()]. *)
Definition key_on_save {A} (table : gmap key A) (pk : option key) : key :=
  default (fresh (dom table)) pk.

(** The user and the account as [save] leaves them. *)
Definition saved_user (w : World) (u : User.t) : User.t :=
  User.set_pk (Some (key_on_save (User_objects w) (User.pk u))) u.

Definition saved_account (w : World) (candidate : SocialAccount.t) (owner : fk)
    : SocialAccount.t :=
  SocialAccount.mk (Some (new_account_key w)) owner
    (SocialAccount.provider candidate) (SocialAccount.uid candidate)
    (Some (now w)) (Some (now w)) (SocialAccount.extra_data candidate).

Definition saved_token (w : World) (tok : SocialToken.t) (account : fk)
    : SocialToken.t :=
  SocialToken.set_account account
    (SocialToken.set_pk (Some (key_on_save (SocialToken_objects w) (SocialToken.pk tok))) tok).

Section Committed.

(** [app_settings.STORE_TOKENS] and the email collaborator. *)
Variable STORE_TOKENS : bool.
Variable setup_user_email :
  Request → User.t → list EmailAddress.t →
  list (option key * EmailAddress.t) → list (option key * EmailAddress.t).

(** The token that [save] stores, if any, with its location. *)
Definition token_to_store (w : World) (s : SocialLogin) : option (loc * SocialToken.t) :=
  if STORE_TOKENS
  then lt ← token s; tok ← tokens w !! lt; Some (lt, tok)
  else None.

(** The world after [save] on a session that was not existing. *)
Definition committed (w : World) (request : Request) (connect : bool)
    (s : SocialLogin) (la : loc) (candidate : SocialAccount.t)
    (lu : loc) (u : User.t) : World :=
  let ku := key_on_save (User_objects w) (User.pk u) in
  let ka := new_account_key w in
  mkWorld
    (<[lu := saved_user w u]> (users w))
    (<[la := saved_account w candidate (FkObj lu)]> (accounts w))
    (match token_to_store w s with
     | Some (lt, tok) => <[lt := saved_token w tok (FkObj la)]> (tokens w)
     | None => tokens w
     end)
    (logins w)
    (<[ku := saved_user w u]> (User_objects w))
    (<[ka := saved_account w candidate (FkId ku)]> (SocialAccount_objects w))
    (match token_to_store w s with
     | Some (lt, tok) =>
         <[key_on_save (SocialToken_objects w) (SocialToken.pk tok)
             := saved_token w tok (FkId ka)]> (SocialToken_objects w)
     | None => SocialToken_objects w
     end)
    (if connect then EmailAddress_objects w
     else setup_user_email request (saved_user w u) (email_addresses s)
            (EmailAddress_objects w))
    (now w).

End Committed.

(** What the adapter's serializer gives back for the instance [x]:
    [deserialize_instance] returns [x'] for the serialized form of [x]. *)
Definition gives_back {Blob A} `{!InstanceCodec Blob A} (x x' : A) : Prop :=
  deserialize_instance (serialize_instance x) = inr x'.

(** A serializer that gives every instance back unchanged. *)
Class CodecLaw (Blob A : Type) `{!InstanceCodec Blob A} : Prop :=
  codec_roundtrip : ∀ x : A, deserialize_instance (serialize_instance x) = inr x.

(** The account [account] has primary key [k]. *)
Definition has_key (w : World) (account : option loc) (k : key) : bool :=
  match account with
  | Some la =>
      match accounts w !! la with
      | Some b => bool_decide (SocialAccount.pk b = Some k)
      | None => false
      end
  | None => false
  end.

(** The object at [l] is the account [account], as instances compare. *)
Definition same_instance (w : World) (l : loc) (account : option loc) : bool :=
  match accounts w !! l with
  | Some a =>
      match SocialAccount.pk a with
      | None => bool_decide (account = Some l)
      | Some k => has_key w account k
      end
  | None => false
  end.

(** The invariant of the data model, in the spec's words: the candidate
    token, if present, references no account yet or exactly the given
    candidate account. *)
Definition token_binding_ok (w : World) (token account : option loc) : bool :=
  match token with
  | None => true
  | Some lt =>
      match tokens w !! lt with
      | Some tok =>
          match SocialToken.account tok with
          | FkUnset => true
          | FkObj l => same_instance w l account
          | FkId k => has_key w account k
          end
      | None => false
      end
  end.

Definition session_invariant (w : World) (self : loc) : bool :=
  match logins w !! self with
  | Some s => token_binding_ok w (token s) (account s)
  | None => false
  end.

(** The arguments of the constructor lead to objects: the account, if
    given, and the token, if given, whose account attribute is set, to
    an object or to the key of a row. *)
Definition init_args_allocated (w : World) (account token : option loc) : Prop :=
  (∀ la, account = Some la → is_Some (accounts w !! la))
  ∧ (∀ lt, token = Some lt →
       ∃ tok, tokens w !! lt = Some tok
              ∧ match SocialToken.account tok with
                | FkUnset => False
                | FkObj l => is_Some (accounts w !! l)
                | FkId k => is_Some (SocialAccount_objects w !! k)
                end).

Definition frames {A} (R : relation World) (m : M World A) : Prop :=
  ∀ w, R w (m w).1.

(** The token part of the world may change, and which token a login
    holds; everything about users and accounts stays. *)
Definition token_side (w w' : World) : Prop :=
  users w' = users w ∧ accounts w' = accounts w
  ∧ User_objects w' = User_objects w
  ∧ SocialAccount_objects w' = SocialAccount_objects w
  ∧ EmailAddress_objects w' = EmailAddress_objects w
  ∧ now w' = now w
  ∧ set_token None <$> logins w' = set_token None <$> logins w.

(** * A returning user and a first login, as data *)

Definition octocat_profile (name : string) : json :=
  JObj [("login", JStr "octocat"); ("name", JStr name)].

Definition github_candidate : SocialAccount.t :=
  SocialAccount.mk None FkUnset "github" "42" None None (octocat_profile "new").

Definition github_stored : SocialAccount.t :=
  SocialAccount.mk (Some 7%positive) (FkId 3%positive) "github" "42"
    (Some 10%Z) (Some 10%Z) (octocat_profile "old").

Definition alice : User.t := User.mk (Some 3%positive) "alice" "alice@example.org".

Definition prefilled_user : User.t := User.mk None "octocat" "".

Definition candidate_token_a2 (pk : option key) (account : fk) : SocialToken.t :=
  SocialToken.mk pk 1%positive account true "a2" "" None.

Definition stored_token_r1 : SocialToken.t :=
  SocialToken.mk (Some 5%positive) 1%positive (FkId 7%positive) true "a1" "r1" (Some 20%Z).

Definition octocat_login : SocialLogin :=
  mkSocialLogin (Some 1%positive) (Some 1%positive) (Some 1%positive)
    [EmailAddress.mk "octocat@example.org" true true] {["next" := "/home"]}.

(** The world of a callback: the candidate objects, and the tables. *)
Definition callback (tok : SocialToken.t) (the_logins : gmap loc SocialLogin)
    (the_users : gmap key User.t) (the_accounts : gmap key SocialAccount.t)
    (the_tokens : gmap key SocialToken.t) : World :=
  mkWorld {[1%positive := prefilled_user]} {[1%positive := github_candidate]}
    {[1%positive := tok]} the_logins
    the_users the_accounts the_tokens [] 100.

Definition returning_user : World :=
  callback (candidate_token_a2 None FkUnset) {[1%positive := octocat_login]}
    {[3%positive := alice]} {[7%positive := github_stored]}
    {[5%positive := stored_token_r1]}.

Definition returning_user_saved_token : World :=
  callback (candidate_token_a2 (Some 5%positive) FkUnset) {[1%positive := octocat_login]}
    {[3%positive := alice]} {[7%positive := github_stored]}
    {[5%positive := stored_token_r1]}.

Definition first_login : World :=
  callback (candidate_token_a2 None FkUnset) {[1%positive := octocat_login]} ∅ ∅ ∅.

Definition before_construction : World :=
  callback (candidate_token_a2 None (FkObj 1%positive)) ∅
    {[3%positive := alice]} {[7%positive := github_stored]} ∅.

Definition add_verified (request : Request) (u : User.t) (eas : list EmailAddress.t)
    (table : list (option key * EmailAddress.t)) : list (option key * EmailAddress.t) :=
  table ++ ((λ ea, (User.pk u, ea)) <$> filter (λ ea, EmailAddress.verified ea = true) eas).

Definition plain_request : Request := mkRequest ∅ ∅ ∅.

Definition next_of (request : Request) : option string := GET request !! "next".

Definition param_of (request : Request) (name default : string) : string :=
  match POST request !! name with
  | Some v => v
  | None => match GET request !! name with
            | Some v => v
            | None => default
            end
  end.

(** An instance serializer that keeps instances as they are. *)
Inductive instance :=
| IUser (u : User.t)
| IAccount (a : SocialAccount.t)
| IToken (t : SocialToken.t)
| IEmail (e : EmailAddress.t).

Definition user_codec : InstanceCodec instance User.t :=
  Build_InstanceCodec _ _ IUser (λ b, if b is IUser u then inr u else inl TypeError).
Definition account_codec : InstanceCodec instance SocialAccount.t :=
  Build_InstanceCodec _ _ IAccount (λ b, if b is IAccount a then inr a else inl TypeError).
Definition token_codec : InstanceCodec instance SocialToken.t :=
  Build_InstanceCodec _ _ IToken (λ b, if b is IToken t then inr t else inl TypeError).
Definition email_codec : InstanceCodec instance EmailAddress.t :=
  Build_InstanceCodec _ _ IEmail (λ b, if b is IEmail e then inr e else inl TypeError).

(** A time in microseconds, cut to whole milliseconds. *)
Definition cut_to_ms (t : Z) : Z := (t / 1000 * 1000)%Z.

(** Modelled from the spec: the adapter's instance serializer is the
    pluggable instance-serializer collaborator of the external interfaces
    and is not among the sources.  This one writes the timestamps of an
    account with millisecond precision, as a JSON encoder of datetimes
    does, and reads back what it wrote. *)
Definition ms_account_codec : InstanceCodec instance SocialAccount.t :=
  Build_InstanceCodec _ _
    (λ a, IAccount
            (SocialAccount.set_last_login (cut_to_ms <$> SocialAccount.last_login a)
               (SocialAccount.set_date_joined (cut_to_ms <$> SocialAccount.date_joined a) a)))
    (λ b, if b is IAccount a then inr a else inl TypeError).

(** A session whose account was stored at a time that is not a whole
    number of milliseconds. *)
Definition stamped_account : SocialAccount.t :=
  SocialAccount.mk (Some 7%positive) (FkId 3%positive) "github" "42"
    (Some 1234567%Z) (Some 1234567%Z) (octocat_profile "new").

Definition stamped_login : SocialLogin :=
  mkSocialLogin (Some 1%positive) (Some 1%positive) (Some 1%positive)
    [EmailAddress.mk "octocat@example.org" true true] {["next" := "/home"]}.

Definition stamped_session : World :=
  mkWorld {[1%positive := alice]} {[1%positive := stamped_account]}
    {[1%positive := stored_token_r1]} {[1%positive := stamped_login]}
    {[3%positive := alice]} {[7%positive := stamped_account]}
    {[5%positive := stored_token_r1]} [] 2000000.

(** A returning user whose candidate token is bound to the candidate
    account. *)
Definition returning_user_bound_token : World :=
  callback (candidate_token_a2 None (FkObj 1%positive)) {[1%positive := octocat_login]}
    {[3%positive := alice]} {[7%positive := github_stored]} ∅.

(** A returning user whose token is not stored yet. *)
Definition returning_user_new_token : World :=
  callback (candidate_token_a2 None FkUnset) {[1%positive := octocat_login]}
    {[3%positive := alice]} {[7%positive := github_stored]} ∅.

(** Two callbacks for the same provider identity, before any is stored. *)
Definition second_login : SocialLogin :=
  mkSocialLogin None (Some 1%positive) (Some 2%positive) [] ∅.

Definition second_candidate : SocialAccount.t :=
  SocialAccount.mk None FkUnset "github" "42" None None (octocat_profile "newer").

Definition two_callbacks : World :=
  mkWorld {[1%positive := prefilled_user]}
    (<[2%positive := second_candidate]> {[1%positive := github_candidate]})
    {[1%positive := candidate_token_a2 None FkUnset]}
    (<[2%positive := second_login]> {[1%positive := octocat_login]})
    ∅ ∅ ∅ [] 100.

(** A signed-in user connecting a provider identity. *)
Definition connecting : World :=
  mkWorld {[1%positive := alice]} {[1%positive := github_candidate]}
    {[1%positive := candidate_token_a2 None FkUnset]} {[1%positive := octocat_login]}
    {[3%positive := alice]} ∅ ∅ [] 100.

(** A signed-in user connecting a provider identity that is stored. *)
Definition connecting_stored : World :=
  mkWorld {[1%positive := alice]} {[1%positive := github_candidate]}
    {[1%positive := candidate_token_a2 None FkUnset]} {[1%positive := octocat_login]}
    {[3%positive := alice]} {[7%positive := github_stored]} ∅ [] 100.

Definition github_app : SocialApp.t :=
  SocialApp.mk None "github" "GitHub" "" None "client" "secret" "" "" {[1%positive]}.

Definition bare_request : RequestObject := mkRequestObject plain_request None.

Definition first_site (request : option RequestObject) : positive := 1%positive.

(** * Properties *)

(** ** Running computations *)

Lemma run_bind {S A B} (m : M S A) (k : A → M S B) (s : S) :
  (m ≫= k) s = match m s with
               | (s', inl e) => (s', inl e)
               | (s', inr x) => k x s'
               end.
Proof. reflexivity. Qed.

Lemma run_bind_ok {S A B} (m : M S A) (k : A → M S B) (s s' : S) (x : A) :
  m s = (s', inr x) → (m ≫= k) s = k x s'.
Proof. intros E. rewrite run_bind, E. reflexivity. Qed.

Lemma run_bind_raise {S A B} (m : M S A) (k : A → M S B) (s s' : S) (e : exn) :
  m s = (s', inl e) → (m ≫= k) s = (s', inl e).
Proof. intros E. rewrite run_bind, E. reflexivity. Qed.

(** ** The verifier stash *)

Section Stash.

Variable get_next_redirect_url : Request → option string.
Variable get_request_param : Request → string → string → string.

Local Abbreviation stash := (stash_state get_next_redirect_url get_request_param).
Local Abbreviation state_of := (state_from_request get_next_redirect_url get_request_param).

Lemma stash_state_run rnd request :
  stash rnd request =
    (set_session (<["socialaccount_state" := (state_of request, rnd)]> (session request))
       request, inr rnd).
Proof. reflexivity. Qed.

Lemma unstash_state_run request :
  unstash_state request =
    match stashed request with
    | None => (request, inl PermissionDenied)
    | Some (state, _) =>
        (set_session (delete "socialaccount_state" (session request)) request, inr state)
    end.
Proof.
  unfold unstash_state, stashed. rewrite run_bind. cbn.
  destruct (session request !! "socialaccount_state") as [[st v]|]; reflexivity.
Qed.

Lemma verify_and_unstash_state_run verifier request :
  verify_and_unstash_state verifier request =
    match stashed request with
    | None => (request, inl PermissionDenied)
    | Some (state, verifier2) =>
        (set_session (delete "socialaccount_state" (session request)) request,
         if bool_decide (verifier ≠ verifier2) then inl PermissionDenied else inr state)
    end.
Proof.
  unfold verify_and_unstash_state, stashed. rewrite run_bind. cbn.
  destruct (session request !! "socialaccount_state") as [[st v]|]; [|reflexivity].
  rewrite run_bind. cbn. destruct (bool_decide (verifier ≠ v)); reflexivity.
Qed.

Lemma stashed_after_pop request :
  stashed (set_session (delete "socialaccount_state" (session request)) request) = None.
Proof. unfold stashed. cbn. apply lookup_delete_eq. Qed.

(** C7: [stash_state] followed by [unstash_state] returns exactly the
    state derived from the request at stash time and removes the
    entry from the session store; [unstash_state] with nothing stashed
    raises [PermissionDenied]. *)
Theorem stash_then_unstash (rnd : string) (request : Request) :
  (∃ stored back,
      stash rnd request = (stored, inr rnd)
      ∧ unstash_state stored = (back, inr (state_of request))
      ∧ stashed back = None
      ∧ unstash_state back = (back, inl PermissionDenied))
  ∧ (stashed request = None →
     unstash_state request = (request, inl PermissionDenied)).
Proof.
  split.
  - eexists _, _. split; [apply stash_state_run|].
    rewrite unstash_state_run. unfold stashed at 1. cbn.
    rewrite lookup_insert_eq. split; [reflexivity|].
    split; [apply lookup_delete_eq|].
    rewrite unstash_state_run. unfold stashed. cbn.
    rewrite lookup_delete_eq. reflexivity.
  - intros Hnone. rewrite unstash_state_run, Hnone. reflexivity.
Qed.

(** C4: [verify_and_unstash_state] raises [PermissionDenied] when
    nothing is stashed (before any comparison) and when the verifier
    differs from the stored one; whenever an entry is stashed it is
    popped, match or not, so every later call raises
    [PermissionDenied], also with the stored verifier. *)
Theorem verify_and_unstash_consumes (verifier : string) (request : Request) :
  (stashed request = None →
     verify_and_unstash_state verifier request = (request, inl PermissionDenied))
  ∧ (∀ state verifier2, stashed request = Some (state, verifier2) →
       ∃ popped,
         session popped = delete "socialaccount_state" (session request)
         ∧ verify_and_unstash_state verifier request
           = (popped, if decide (verifier = verifier2)
                      then inr state else inl PermissionDenied)
         ∧ ∀ again, verify_and_unstash_state again popped
                    = (popped, inl PermissionDenied)).
Proof.
  split.
  - intros Hnone. rewrite verify_and_unstash_state_run, Hnone. reflexivity.
  - intros st v2 Hsome. eexists. split; [|split].
    2:{ rewrite verify_and_unstash_state_run, Hsome. f_equal.
        destruct (decide (verifier = v2)) as [->|Hne].
        - rewrite bool_decide_eq_false_2; [reflexivity|]. intros H; apply H; reflexivity.
        - rewrite bool_decide_eq_true_2; [reflexivity|assumption]. }
    + reflexivity.
    + intros again. rewrite verify_and_unstash_state_run, stashed_after_pop.
      reflexivity.
Qed.

End Stash.

(** ** The store: which rows a query finds *)

Section Select.
Context {A : Type} (matches : A → bool) (rows : gmap key A).

Lemma select_lookup k row :
  (k, row) ∈ select matches rows ↔ rows !! k = Some row ∧ matches row = true.
Proof.
  unfold select. rewrite elem_of_map_to_list, map_lookup_filter_Some. reflexivity.
Qed.

Lemma select_nil :
  select matches rows = [] ↔
  ∀ k row, rows !! k = Some row → matches row = false.
Proof.
  split.
  - intros Hnil k row Hk. destruct (matches row) eqn:Hm; [|reflexivity].
    assert ((k, row) ∈ select matches rows) as Hin by (apply select_lookup; auto).
    rewrite Hnil in Hin. inversion Hin.
  - intros Hnone. destruct (select matches rows) as [|[k row] l] eqn:E; [reflexivity|].
    assert ((k, row) ∈ select matches rows) as Hin by (rewrite E; left).
    apply select_lookup in Hin as [Hk Hm]. rewrite (Hnone _ _ Hk) in Hm. discriminate.
Qed.

Lemma select_one k row :
  select matches rows = [(k, row)] ↔
  rows !! k = Some row ∧ matches row = true
  ∧ ∀ k' row', rows !! k' = Some row' → matches row' = true → k' = k.
Proof.
  split.
  - intros E. assert ((k, row) ∈ select matches rows) as Hin by (rewrite E; left).
    apply select_lookup in Hin as [Hk Hm]. split; [assumption|]. split; [assumption|].
    intros k' row' Hk' Hm'.
    assert ((k', row') ∈ select matches rows) as Hin' by (apply select_lookup; auto).
    rewrite E in Hin'. apply list_elem_of_singleton in Hin'. congruence.
  - intros (Hk & Hm & Huniq). unfold select.
    assert (filter (λ kr : key * A, matches kr.2 = true) rows = {[k := row]}) as ->.
    { apply map_eq. intros i. destruct (decide (i = k)) as [->|Hne].
      - rewrite lookup_singleton_eq. apply map_lookup_filter_Some. auto.
      - rewrite lookup_singleton_ne by congruence.
        apply map_lookup_filter_None. right. intros row' Hi Hm'.
        apply Hne. eapply Huniq; eauto. }
    apply map_to_list_singleton.
Qed.
End Select.

(** ** The store: what the database refuses *)

Lemma conflicts_false {A} (same : A → bool) (rows : gmap key A) k :
  (∀ k' row', rows !! k' = Some row' → same row' = true → k' = k) →
  conflicts same rows k = false.
Proof.
  intros H. unfold conflicts.
  assert (select same (delete k rows) = []) as ->; [|reflexivity].
  apply select_nil. intros k' row' Hk'.
  apply lookup_delete_Some in Hk' as [Hne Hk'].
  destruct (same row') eqn:E; [|reflexivity]. exfalso. apply Hne. symmetry. eauto.
Qed.

Lemma conflicts_true {A} (same : A → bool) (rows : gmap key A) k k' row' :
  rows !! k' = Some row' → same row' = true → k' ≠ k →
  conflicts same rows k = true.
Proof.
  intros Hk' Hm Hne. unfold conflicts.
  destruct (select same (delete k rows)) eqn:E; [|reflexivity]. exfalso.
  rewrite select_nil in E. rewrite (E k' row') in Hm; [discriminate|].
  apply lookup_delete_Some. auto.
Qed.

Lemma new_account_key_None w : SocialAccount_objects w !! new_account_key w = None.
Proof.
  apply not_elem_of_dom. intros H.
  apply (is_fresh (dom (SocialAccount_objects w) ∪ referenced_accounts w)).
  apply elem_of_union. left. exact H.
Qed.

Lemma new_account_key_unreferenced w kt row :
  SocialToken_objects w !! kt = Some row →
  SocialToken.account row ≠ FkId (new_account_key w).
Proof.
  intros Hk E.
  apply (is_fresh (dom (SocialAccount_objects w) ∪ referenced_accounts w)).
  apply elem_of_union. right. unfold referenced_accounts.
  apply elem_of_list_to_set, list_elem_of_omap. exists (kt, row).
  split; [apply elem_of_map_to_list; exact Hk|]. cbn. rewrite E. reflexivity.
Qed.

Lemma stored_account_no_conflict w provider uid k row :
  stored_account w provider uid k row →
  conflicts (account_matches (SocialAccount.provider row) (SocialAccount.uid row))
    (SocialAccount_objects w) k = false.
Proof.
  intros (Hk & Hp & Hu & Huniq). apply conflicts_false. intros k' row' Hk' Hm.
  apply bool_decide_eq_true_1 in Hm as [? ?]. eapply Huniq; eauto; congruence.
Qed.

Lemma no_stored_account_no_conflict w provider uid k :
  no_stored_account w provider uid →
  conflicts (account_matches provider uid) (SocialAccount_objects w) k = false.
Proof.
  intros Hnone. apply conflicts_false. intros k' row' Hk' Hm.
  apply bool_decide_eq_true_1 in Hm. destruct (Hnone _ _ Hk' Hm).
Qed.

Lemma stored_token_no_conflict w k app kt row :
  stored_token w k app kt row →
  conflicts (token_matches (Some k) app) (SocialToken_objects w) kt = false.
Proof.
  intros (Hk & Ha & Hp & Huniq). apply conflicts_false. intros kt' row' Hk' Hm.
  unfold token_matches in Hm.
  apply andb_prop in Hm as [Hm1 Hm2]. apply bool_decide_eq_true_1 in Hm2.
  destruct (SocialToken.account row') as [| |k'] eqn:E; try discriminate.
  apply bool_decide_eq_true_1 in Hm1. subst k'. eauto.
Qed.

Lemma no_stored_token_no_conflict w k app kt :
  no_stored_token w k app →
  conflicts (token_matches (Some k) app) (SocialToken_objects w) kt = false.
Proof.
  intros Hnone. apply conflicts_false. intros kt' row' Hk' Hm. exfalso.
  apply (Hnone kt' row' Hk'). unfold token_matches in Hm.
  apply andb_prop in Hm as [Hm1 Hm2]. apply bool_decide_eq_true_1 in Hm2.
  destruct (SocialToken.account row') as [| |k']; try discriminate.
  apply bool_decide_eq_true_1 in Hm1. subst. auto.
Qed.

Lemma new_account_no_token_conflict w app kt :
  conflicts (token_matches (Some (new_account_key w)) app) (SocialToken_objects w) kt = false.
Proof.
  apply no_stored_token_no_conflict. intros kt' row' Hk' [E _].
  exact (new_account_key_unreferenced _ _ _ Hk' E).
Qed.

(** ** Primitive steps *)

Lemma run_deref {A} (c : Cell A) l x w :
  cell_get c w !! l = Some x → deref c (Some l) w = (w, inr x).
Proof. intros E. unfold deref. rewrite E. reflexivity. Qed.

Lemma run_setattr {A} (c : Cell A) l x f w :
  cell_get c w !! l = Some x →
  setattr c (Some l) f w = (cell_set c (<[l := f x]> (cell_get c w)) w, inr tt).
Proof. intros E. unfold setattr. rewrite E. reflexivity. Qed.

Lemma run_try_ok {S A} (body handler : M S A) e s s' x :
  body s = (s', inr x) → try_except body e handler s = (s', inr x).
Proof. intros E. unfold try_except. rewrite E. reflexivity. Qed.

Lemma run_try_caught {S A} (body handler : M S A) e s s' :
  body s = (s', inl e) → try_except body e handler s = handler s'.
Proof.
  intros E. unfold try_except. rewrite E. rewrite decide_True; reflexivity.
Qed.

Lemma run_try_uncaught {S A} (body handler : M S A) e e' s s' :
  body s = (s', inl e') → e' ≠ e → try_except body e handler s = (s', inl e').
Proof.
  intros E Hne. unfold try_except. rewrite E. rewrite decide_False; auto.
Qed.

Lemma fresh_lookup_ne {A} (m : gmap positive A) l x :
  m !! l = Some x → fresh (dom m) ≠ l.
Proof.
  intros E <-. apply (is_fresh (dom m)). apply elem_of_dom. eauto.
Qed.

Lemma run_objects_get_none {A} (table heap : Cell A) set_pk m matches w :
  select matches (cell_get table w) = [] →
  objects_get table heap set_pk m matches w = (w, inl (DoesNotExist m)).
Proof. intros E. unfold objects_get. rewrite run_bind. cbn. rewrite E. reflexivity. Qed.

Lemma run_objects_get_one {A} (table heap : Cell A) set_pk m matches w k row :
  select matches (cell_get table w) = [(k, row)] →
  objects_get table heap set_pk m matches w = new heap (set_pk (Some k) row) w.
Proof. intros E. unfold objects_get. rewrite run_bind. cbn. rewrite E. reflexivity. Qed.

Ltac wsimpl :=
  cbn [cell_get cell_set users_cell accounts_cell tokens_cell logins_cell
       User_table SocialAccount_table SocialToken_table
       users accounts tokens logins User_objects SocialAccount_objects
       SocialToken_objects EmailAddress_objects now set_EmailAddress_objects] in *.

(** One step of a computation [m ≫= k]: run [m] with [tac]. *)
Ltac step tac :=
  lazymatch goal with
  | |- (?m ≫= ?k) ?w = _ =>
      etransitivity; [apply run_bind_ok; tac|]; cbv beta; wsimpl
  end.

Ltac step_deref :=
  step ltac:(apply run_deref; wsimpl;
             first [eassumption | apply lookup_insert_eq
                   | rewrite lookup_insert_ne by eauto using fresh_lookup_ne; eassumption]).

Ltac step_setattr :=
  step ltac:(apply run_setattr; wsimpl;
             first [eassumption | apply lookup_insert_eq
                   | rewrite lookup_insert_ne by eauto using fresh_lookup_ne; eassumption]).

(** ** Frames: what a computation leaves alone

    [frames R m]: running [m] takes every world to an [R]-related one,
    whatever the outcome. *)

Section Frames.
Context (R : relation World) `{!PreOrder R}.

Lemma frames_ret {A} (x : A) : frames R (mret x).
Proof. intros w. cbn. reflexivity. Qed.

Lemma frames_raise {A} e : frames R (raise (A:=A) e).
Proof. intros w. cbn. reflexivity. Qed.

Lemma frames_gets {A} (f : World → A) : frames R (gets f).
Proof. intros w. cbn. reflexivity. Qed.

Lemma frames_assert b : frames R (assert b).
Proof. destruct b; intros w; cbn; reflexivity. Qed.

Lemma frames_deref {A} (c : Cell A) r : frames R (deref c r).
Proof.
  intros w. unfold deref. destruct r as [l|]; [|reflexivity].
  destruct (cell_get c w !! l); reflexivity.
Qed.

Lemma frames_bind {A B} (m : M World A) (k : A → M World B) :
  frames R m → (∀ x, frames R (k x)) → frames R (m ≫= k).
Proof.
  intros Hm Hk w. rewrite run_bind. specialize (Hm w).
  destruct (m w) as [w' [e|x]]; cbn in *; [assumption|].
  etransitivity; [exact Hm|apply Hk].
Qed.

Lemma frames_try {A} (body handler : M World A) e :
  frames R body → frames R handler → frames R (try_except body e handler).
Proof.
  intros Hb Hh w. unfold try_except. specialize (Hb w).
  destruct (body w) as [w' [e'|x]]; cbn in *; [|assumption].
  destruct (decide (e' = e)); cbn; [|assumption].
  etransitivity; [exact Hb|apply Hh].
Qed.

(** Updates of one cell, when [R] ignores what they write. *)
Lemma frames_setattr {A} (c : Cell A) r (f : A → A) :
  (∀ w l x, cell_get c w !! l = Some x →
            R w (cell_set c (<[l := f x]> (cell_get c w)) w)) →
  frames R (setattr c r f).
Proof.
  intros H w. unfold setattr. destruct r as [l|]; [|reflexivity].
  destruct (cell_get c w !! l) eqn:E; cbn; [auto|reflexivity].
Qed.

Lemma frames_new {A} (c : Cell A) (x : A) :
  (∀ w m, R w (cell_set c m w)) → frames R (new c x).
Proof. intros H w. cbn. apply H. Qed.

Lemma frames_modify (f : World → World) :
  (∀ w, R w (f w)) → frames R (modify f).
Proof. intros H w. cbn. apply H. Qed.

Lemma frames_related_id {B} (target : Cell B) pk_of f :
  frames R (related_id target pk_of f).
Proof.
  destruct f; cbn; try apply frames_ret.
  apply frames_bind; [apply frames_deref|]. intros x.
  destruct (pk_of x); [apply frames_ret|apply frames_raise].
Qed.

Lemma frames_pk_on_save {A} (table : Cell A) pk : frames R (pk_on_save table pk).
Proof. destruct pk; [apply frames_ret|apply frames_gets]. Qed.

Lemma frames_objects_get {A} (table heap : Cell A) set_pk m matches :
  (∀ w x, R w (cell_set heap x w)) →
  frames R (objects_get table heap set_pk m matches).
Proof.
  intros H. apply frames_bind; [apply frames_gets|]. intros rows.
  destruct (select matches rows) as [|kr [|]];
    [apply frames_raise|apply frames_new, H|apply frames_raise].
Qed.
End Frames.

Global Instance token_side_preorder : PreOrder token_side.
Proof.
  split.
  - intros w. unfold token_side. auto 10.
  - intros w1 w2 w3 (?&?&?&?&?&?&?) (?&?&?&?&?&?&?). unfold token_side.
    repeat split; congruence.
Qed.

Lemma token_side_tokens m w : token_side w (cell_set tokens_cell m w).
Proof. unfold token_side. cbn. auto 10. Qed.

Lemma token_side_table m w : token_side w (cell_set SocialToken_table m w).
Proof. unfold token_side. cbn. auto 10. Qed.

Lemma token_side_login_token w l s v :
  logins w !! l = Some s →
  token_side w (cell_set logins_cell (<[l := set_token v s]> (logins w)) w).
Proof.
  intros Hl. unfold token_side. cbn. repeat split.
  rewrite fmap_insert. apply insert_id. rewrite lookup_fmap, Hl. reflexivity.
Qed.

Lemma frames_SocialToken_save self : frames token_side (SocialToken_save self).
Proof.
  unfold SocialToken_save.
  apply (frames_bind token_side); [apply (frames_deref token_side)|]. intros t.
  apply (frames_bind token_side); [apply (frames_related_id token_side)|]. intros acc.
  apply (frames_bind token_side); [apply (frames_pk_on_save token_side)|]. intros k.
  apply (frames_bind token_side); [apply (frames_gets token_side)|]. intros rows.
  destruct (refused _ _); [apply (frames_raise token_side)|].
  apply (frames_bind token_side).
  - apply (frames_setattr token_side). intros. apply token_side_tokens.
  - intros _. apply (frames_modify token_side). intros. apply token_side_table.
Qed.

Lemma frames_lookup_token STORE_TOKENS self a :
  frames token_side (lookup_token STORE_TOKENS self a).
Proof.
  unfold lookup_token.
  apply (frames_bind token_side); [apply (frames_deref token_side)|]. intros s.
  destruct (STORE_TOKENS && truthy (token s)); [|apply (frames_ret token_side)].
  apply (frames_bind token_side); [apply (frames_deref token_side)|]. intros candidate.
  apply (frames_bind token_side); [apply (frames_assert token_side)|]. intros _.
  apply (frames_try token_side).
  - apply (frames_bind token_side).
    { unfold SocialToken_objects_get.
      apply (frames_bind token_side); [apply (frames_deref token_side)|]. intros acc.
      apply (frames_objects_get token_side). intros. apply token_side_tokens. }
    intros t.
    apply (frames_bind token_side).
    { apply (frames_setattr token_side). intros. apply token_side_tokens. }
    intros _. apply (frames_bind token_side).
    { destruct (bool_decide _); [|apply (frames_ret token_side)].
      apply (frames_setattr token_side). intros. apply token_side_tokens. }
    intros _. apply (frames_bind token_side).
    { apply (frames_setattr token_side). intros. apply token_side_tokens. }
    intros _. apply (frames_bind token_side); [apply frames_SocialToken_save|].
    intros _. apply (frames_setattr token_side).
    intros w l x Hl. apply token_side_login_token, Hl.
  - apply (frames_bind token_side).
    { apply (frames_setattr token_side). intros. apply token_side_tokens. }
    intros _. apply frames_SocialToken_save.
Qed.

(** ** Reconciliation: [lookup] *)

Section Lookup.

Variable STORE_TOKENS : bool.

Lemma run_is_existing w self candidate :
  candidate_account w self candidate →
  is_existing self w = (w, inr (SocialAccount.pk candidate)).
Proof.
  intros (s & la & Hs & Hla & Ha). unfold is_existing.
  rewrite (run_bind_ok _ _ _ _ _ (run_deref logins_cell _ _ _ Hs)).
  rewrite Hla.
  rewrite (run_bind_ok _ _ _ _ _ (run_deref accounts_cell _ _ _ Ha)).
  reflexivity.
Qed.

(** C6: on a session that is not existing and whose (provider, uid)
    pair has no stored match, [lookup] returns normally and changes
    nothing: no table is written, and the session keeps its account,
    user and token and stays not existing. *)
Theorem lookup_no_match (w : World) (self : loc) (candidate : SocialAccount.t) :
  candidate_account w self candidate →
  SocialAccount.pk candidate = None →
  no_stored_account w (SocialAccount.provider candidate) (SocialAccount.uid candidate) →
  lookup STORE_TOKENS self w = (w, inr tt)
  ∧ is_existing self w = (w, inr None).
Proof.
  intros Hc Hpk Hnone. pose proof (run_is_existing _ _ _ Hc) as Hex.
  rewrite Hpk in Hex. split; [|assumption].
  destruct Hc as (s & la & Hs & Hla & Ha). unfold lookup.
  rewrite (run_bind_ok _ _ _ _ _ Hex). cbn [truthy negb assert].
  rewrite (run_bind_ok _ _ w w tt) by reflexivity.
  erewrite run_try_caught; [reflexivity|].
  rewrite (run_bind_ok _ _ _ _ _ (run_deref logins_cell _ _ _ Hs)).
  rewrite Hla.
  rewrite (run_bind_ok _ _ _ _ _ (run_deref accounts_cell _ _ _ Ha)).
  apply run_bind_raise. unfold SocialAccount_objects_get.
  apply run_objects_get_none. apply select_nil. intros k row Hk.
  unfold account_matches. apply bool_decide_eq_false_2. eapply Hnone, Hk.
Qed.


Lemma stored_account_select w provider uid k row :
  stored_account w provider uid k row →
  select (account_matches provider uid) (SocialAccount_objects w) = [(k, row)].
Proof.
  intros (Hk & Hp & Hu & Huniq). apply select_one. split; [assumption|]. split.
  - apply bool_decide_eq_true_2. auto.
  - intros k' row' Hk' Hm. apply bool_decide_eq_true_1 in Hm as [? ?]. eauto.
Qed.

Lemma lookup_found_run w self s la candidate k row ku owner :
  logins w !! self = Some s → account s = Some la →
  accounts w !! la = Some candidate →
  SocialAccount.pk candidate = None →
  stored_account w (SocialAccount.provider candidate) (SocialAccount.uid candidate) k row →
  stored_owner w row ku owner →
  lookup STORE_TOKENS self w =
    try_except (lookup_token STORE_TOKENS self (fresh (dom (accounts w))))
      (DoesNotExist SocialAccountModel) (mret tt)
      (account_reconciled w self s k row candidate ku owner).
Proof.
  intros Hs Hla Ha Hpk Hfound [Hfk Hku].
  pose proof (stored_account_select _ _ _ _ _ Hfound) as Hsel.
  pose proof (stored_account_no_conflict _ _ _ _ _ Hfound) as Hfree.
  destruct Hfound as (Hk & _).
  unfold lookup.
  step ltac:(apply run_is_existing; exists s, la; eauto).
  rewrite Hpk. cbn [truthy negb assert].
  step ltac:(reflexivity).
  unfold try_except at 1. symmetry. unfold try_except at 1. symmetry.
  match goal with |- match ?x with _ => _ end = match ?y with _ => _ end =>
    enough (x = y) as -> by reflexivity end.
  step_deref. rewrite Hla. step_deref.
  step ltac:(unfold SocialAccount_objects_get;
             erewrite run_objects_get_one by (wsimpl; exact Hsel); reflexivity).
  step_setattr. rewrite insert_insert_eq.
  step_setattr.
  (* owner ← self.account.user *)
  step ltac:(unfold SocialAccount_user, getattr_fk;
             step_deref; cbn [SocialAccount.user SocialAccount.set_extra_data
                              SocialAccount.set_pk];
             rewrite Hfk;
             step ltac:(reflexivity); rewrite Hku;
             step ltac:(reflexivity);
             step_setattr; reflexivity).
  rewrite insert_insert_eq.
  step_setattr. rewrite insert_insert_eq.
  (* a.save() *)
  step ltac:(unfold SocialAccount_save;
             step_deref; cbn [SocialAccount.user SocialAccount.set_user];
             step ltac:(unfold related_id; step_deref; reflexivity);
             cbn [SocialAccount.pk SocialAccount.set_user SocialAccount.set_extra_data
                  SocialAccount.set_pk SocialAccount.provider SocialAccount.uid
                  account_pk_on_save];
             step ltac:(reflexivity);
             step ltac:(reflexivity);
             step ltac:(reflexivity);
             step ltac:(reflexivity);
             rewrite Hk, bool_decide_eq_false_2 by discriminate;
             rewrite Hfree; cbn [refused User.pk User.set_pk];
             step_setattr; reflexivity).
  rewrite insert_insert_eq.
  reflexivity.
Qed.

Lemma try_pass_world {A} (body : M World A) e (x : A) w :
  (try_except body e (mret x) w).1 = (body w).1.
Proof.
  unfold try_except. destruct (body w) as [w' [e'|y]]; [|reflexivity].
  destruct (decide (e' = e)); reflexivity.
Qed.

Lemma token_side_login w w' self s :
  token_side w w' → logins w !! self = Some s →
  ∃ s', logins w' !! self = Some s'
        ∧ account s' = account s ∧ user s' = user s
        ∧ email_addresses s' = email_addresses s ∧ state s' = state s.
Proof.
  intros (_&_&_&_&_&_&Hl) Hs.
  assert ((set_token None <$> logins w') !! self = Some (set_token None s)) as H.
  { rewrite Hl, lookup_fmap, Hs. reflexivity. }
  rewrite lookup_fmap in H. destruct (logins w' !! self) as [s'|]; [|discriminate].
  exists s'. split; [reflexivity|]. inversion H. auto.
Qed.

(** C1: on a session that is not existing and whose (provider, uid)
    pair matches a stored account, [lookup] makes the stored account
    (a new instance [a] with the row's key) the session's account, with
    the candidate's profile payload in place of the stored one, writes
    that row back, makes the row's owner the session's user, and leaves
    the session existing. *)
Theorem lookup_found (w : World) (self : loc) (s : SocialLogin) (la : loc)
    (candidate : SocialAccount.t)
    (k : key) (row : SocialAccount.t) (ku : key) (owner : User.t) :
  logins w !! self = Some s → account s = Some la →
  accounts w !! la = Some candidate →
  SocialAccount.pk candidate = None →
  stored_account w (SocialAccount.provider candidate) (SocialAccount.uid candidate) k row →
  stored_owner w row ku owner →
  ∃ w' outcome s' a u,
    lookup STORE_TOKENS self w = (w', outcome)
    ∧ logins w' !! self = Some s'
    ∧ account s' = Some a ∧ a ≠ la
    ∧ accounts w' !! a = Some (refreshed w k row candidate (FkObj u))
    ∧ SocialAccount.extra_data (refreshed w k row candidate (FkObj u))
      = SocialAccount.extra_data candidate
    ∧ SocialAccount_objects w'
      = <[k := refreshed w k row candidate (FkId ku)]> (SocialAccount_objects w)
    ∧ user s' = Some u
    ∧ users w' !! u = Some (User.set_pk (Some ku) owner)
    ∧ User_objects w' = User_objects w
    ∧ is_existing self w' = (w', inr (Some k))
    ∧ (STORE_TOKENS && truthy (token s) = false → outcome = inr tt).
Proof.
  intros Hs Hla Ha Hpk Hfound Howner.
  pose proof (lookup_found_run _ _ _ _ _ _ _ _ _ Hs Hla Ha Hpk Hfound Howner) as Hrun.
  set (w6 := account_reconciled w self s k row candidate ku owner) in *.
  set (a := fresh (dom (accounts w))) in *.
  assert (token_side w6 (lookup STORE_TOKENS self w).1) as Hside.
  { rewrite Hrun, try_pass_world. apply frames_lookup_token. }
  assert (logins w6 !! self = Some (set_user (Some (fresh (dom (users w))))
                                      (set_account (Some a) s))) as Hs6.
  { unfold w6, account_reconciled. cbn. apply lookup_insert_eq. }
  assert (STORE_TOKENS && truthy (token s) = false →
          (lookup STORE_TOKENS self w).2 = inr tt) as Hquiet.
  { intros Hcond. rewrite Hrun. erewrite run_try_ok; [reflexivity|].
    unfold lookup_token. step ltac:(apply run_deref; exact Hs6).
    cbn [token set_user set_account]. rewrite Hcond. reflexivity. }
  destruct (lookup STORE_TOKENS self w) as [w' outcome]. cbn [fst snd] in *.
  destruct (token_side_login _ _ _ _ Hside Hs6) as (s' & Hs' & Hacc & Husr & _).
  destruct Hside as (Hu & Hac & HU & HA & _).
  assert (accounts w' !! a
          = Some (refreshed w k row candidate (FkObj (fresh (dom (users w)))))) as Ha'.
  { rewrite Hac. unfold w6, account_reconciled. cbn. apply lookup_insert_eq. }
  exists w', outcome, s', a, (fresh (dom (users w))).
  split; [reflexivity|]. split; [exact Hs'|]. split; [exact Hacc|].
  split; [eapply fresh_lookup_ne; exact Ha|].
  split; [exact Ha'|]. split; [reflexivity|].
  split; [rewrite HA; reflexivity|]. split; [exact Husr|].
  split; [rewrite Hu; unfold w6, account_reconciled; cbn; apply lookup_insert_eq|].
  split; [rewrite HU; reflexivity|].
  split; [|exact Hquiet].
  apply (run_is_existing w' self (refreshed w k row candidate (FkObj (fresh (dom (users w)))))).
  exists s', a. auto.
Qed.

Lemma stored_token_select w k app kt row :
  stored_token w k app kt row →
  select (token_matches (Some k) app) (SocialToken_objects w) = [(kt, row)].
Proof.
  intros (Hk & Ha & Hp & Huniq). apply select_one. split; [assumption|]. split.
  - unfold token_matches. rewrite Ha, Hp, !bool_decide_eq_true_2; reflexivity.
  - intros kt' row' Hk' Hm. unfold token_matches in Hm.
    apply andb_prop in Hm as [Hm1 Hm2]. apply bool_decide_eq_true_1 in Hm2.
    destruct (SocialToken.account row') as [| |k'] eqn:E; try discriminate.
    apply bool_decide_eq_true_1 in Hm1. subst k'. eauto.
Qed.

Lemma no_stored_token_select w k app :
  no_stored_token w k app →
  select (token_matches (Some k) app) (SocialToken_objects w) = [].
Proof.
  intros Hnone. apply select_nil. intros kt row Hk.
  destruct (token_matches (Some k) app row) eqn:Hm; [|reflexivity]. exfalso.
  apply (Hnone kt row Hk). unfold token_matches in Hm.
  apply andb_prop in Hm as [Hm1 Hm2]. apply bool_decide_eq_true_1 in Hm2.
  destruct (SocialToken.account row) as [| |k']; try discriminate.
  apply bool_decide_eq_true_1 in Hm1. subst. auto.
Qed.

(** The token part of [lookup], run: a stored token is refreshed. *)
Lemma lookup_token_refresh_run w self s a acc k lt tok kt trow :
  STORE_TOKENS = true →
  logins w !! self = Some s → account s = Some a →
  accounts w !! a = Some acc → SocialAccount.pk acc = Some k →
  token s = Some lt → tokens w !! lt = Some tok → SocialToken.pk tok = None →
  stored_token w k (SocialToken.app tok) kt trow →
  lookup_token STORE_TOKENS self a w = (token_refreshed w self s kt trow tok, inr tt).
Proof.
  intros Hst Hs Ha Hacc Hk Hlt Htok Htpk Hstored.
  pose proof (stored_token_select _ _ _ _ _ Hstored) as Hsel.
  pose proof (stored_token_no_conflict _ _ _ _ _ Hstored) as Hfree.
  destruct Hstored as (Hkt & Hfk & Happ & _).
  unfold lookup_token, token_refreshed, refreshed_token.
  step_deref. rewrite Hst, Hlt, Ha. cbn [truthy andb].
  step_deref. rewrite Htpk. cbn [truthy negb assert].
  step ltac:(reflexivity).
  apply run_try_ok.
  step ltac:(unfold SocialToken_objects_get; step_deref; rewrite Hk;
             erewrite run_objects_get_one by (wsimpl; exact Hsel); reflexivity).
  step_setattr. rewrite insert_insert_eq.
  destruct (decide (SocialToken.token_secret tok = "")) as [Hsec|Hsec].
  - rewrite bool_decide_eq_false_2 by (intros H; apply H, Hsec).
    step ltac:(reflexivity).
    step_setattr. rewrite insert_insert_eq.
    step ltac:(unfold SocialToken_save; step_deref;
               cbn [SocialToken.account SocialToken.set_expires_at
                    SocialToken.set_token SocialToken.set_pk];
               rewrite Hfk; cbn [related_id];
               step ltac:(reflexivity);
               cbn [SocialToken.pk pk_on_save];
               step ltac:(reflexivity);
               step ltac:(reflexivity);
               cbn [SocialToken.app SocialToken.set_expires_at SocialToken.set_token_secret
                    SocialToken.set_token SocialToken.set_pk fk_key];
               rewrite Happ, Hfree; cbn [refused];
               step_setattr; reflexivity).
    rewrite insert_insert_eq.
    erewrite run_setattr by (wsimpl; exact Hs).
    unfold SocialToken.set_account, SocialToken.set_pk, SocialToken.set_expires_at,
      SocialToken.set_token, SocialToken.set_token_secret.
    cbn. rewrite Hfk. reflexivity.
  - rewrite bool_decide_eq_true_2 by assumption.
    step_setattr. rewrite insert_insert_eq.
    step_setattr. rewrite insert_insert_eq.
    step ltac:(unfold SocialToken_save; step_deref;
               cbn [SocialToken.account SocialToken.set_expires_at
                    SocialToken.set_token_secret
                    SocialToken.set_token SocialToken.set_pk];
               rewrite Hfk; cbn [related_id];
               step ltac:(reflexivity);
               cbn [SocialToken.pk pk_on_save];
               step ltac:(reflexivity);
               step ltac:(reflexivity);
               cbn [SocialToken.app SocialToken.set_expires_at SocialToken.set_token_secret
                    SocialToken.set_token SocialToken.set_pk fk_key];
               rewrite Happ, Hfree; cbn [refused];
               step_setattr; reflexivity).
    rewrite insert_insert_eq.
    erewrite run_setattr by (wsimpl; exact Hs).
    unfold SocialToken.set_account, SocialToken.set_pk, SocialToken.set_expires_at,
      SocialToken.set_token, SocialToken.set_token_secret.
    cbn. rewrite Hfk. reflexivity.
Qed.

(** The token part of [lookup], run: no stored token, the candidate is
    bound to the account and stored. *)
Lemma lookup_token_bind_run w self s a acc k lt tok :
  STORE_TOKENS = true →
  logins w !! self = Some s → account s = Some a →
  accounts w !! a = Some acc → SocialAccount.pk acc = Some k →
  token s = Some lt → tokens w !! lt = Some tok → SocialToken.pk tok = None →
  no_stored_token w k (SocialToken.app tok) →
  lookup_token STORE_TOKENS self a w = (token_bound w lt a k tok, inr tt).
Proof.
  intros Hst Hs Ha Hacc Hk Hlt Htok Htpk Hnone.
  pose proof (no_stored_token_select _ _ _ Hnone) as Hsel.
  pose proof (no_stored_token_no_conflict _ _ _ (fresh (dom (SocialToken_objects w))) Hnone)
    as Hfree.
  unfold lookup_token, token_bound, bound_token.
  step_deref. rewrite Hst, Hlt, Ha. cbn [truthy andb].
  step_deref. rewrite Htpk. cbn [truthy negb assert].
  step ltac:(reflexivity).
  erewrite run_try_caught.
  2:{ apply run_bind_raise. unfold SocialToken_objects_get. step_deref. rewrite Hk.
      apply run_objects_get_none. wsimpl. exact Hsel. }
  step_setattr.
  unfold SocialToken_save. step_deref.
  cbn [SocialToken.account SocialToken.set_account assigned].
  step ltac:(unfold related_id; step_deref; rewrite Hk; reflexivity).
  cbn [SocialToken.pk SocialToken.set_account]. rewrite Htpk. cbn [pk_on_save].
  step ltac:(reflexivity).
  step ltac:(reflexivity).
  cbn [SocialToken.app SocialToken.set_account fk_key]. rewrite Hfree. cbn [refused].
  step_setattr. rewrite insert_insert_eq.
  reflexivity.
Qed.

(** C10: when [lookup] has found the stored account, tokens are stored
    and the session has a candidate token, a candidate token that
    already has a primary key makes [lookup] raise [AssertionError]
    (after the account has been reconciled). *)
Theorem lookup_asserts_unsaved_token (w : World) (self : loc) (s : SocialLogin)
    (la : loc) (candidate : SocialAccount.t) (k : key) (row : SocialAccount.t)
    (ku : key) (owner : User.t) (lt : loc) (tok : SocialToken.t) (kt : key) :
  STORE_TOKENS = true →
  logins w !! self = Some s → account s = Some la →
  accounts w !! la = Some candidate →
  SocialAccount.pk candidate = None →
  stored_account w (SocialAccount.provider candidate) (SocialAccount.uid candidate) k row →
  stored_owner w row ku owner →
  token s = Some lt → tokens w !! lt = Some tok →
  SocialToken.pk tok = Some kt →
  lookup STORE_TOKENS self w
  = (account_reconciled w self s k row candidate ku owner, inl AssertionError).
Proof.
  intros Hst Hs Hla Ha Hpk Hfound Howner Hlt Htok Hkt.
  rewrite (lookup_found_run _ _ _ _ _ _ _ _ _ Hs Hla Ha Hpk Hfound Howner).
  apply run_try_uncaught; [|discriminate].
  unfold lookup_token, account_reconciled.
  step_deref. cbn [token set_user set_account]. rewrite Hst, Hlt. cbn [truthy andb].
  step_deref. rewrite Hkt. reflexivity.
Qed.

(** C2: with the stored account found, tokens stored, an unsaved
    candidate token and a stored token for the same (account, app):
    the stored token takes the candidate's token value and expiry,
    takes the candidate's secret only when that is not empty, is
    written back under its key, and becomes the session's token. *)
Theorem lookup_refreshes_token (w : World) (self : loc) (s : SocialLogin)
    (la : loc) (candidate : SocialAccount.t) (k : key) (row : SocialAccount.t)
    (ku : key) (owner : User.t) (lt : loc) (tok : SocialToken.t)
    (kt : key) (trow : SocialToken.t) :
  STORE_TOKENS = true →
  logins w !! self = Some s → account s = Some la →
  accounts w !! la = Some candidate →
  SocialAccount.pk candidate = None →
  stored_account w (SocialAccount.provider candidate) (SocialAccount.uid candidate) k row →
  stored_owner w row ku owner →
  token s = Some lt → tokens w !! lt = Some tok →
  SocialToken.pk tok = None →
  stored_token w k (SocialToken.app tok) kt trow →
  ∃ w' s' t,
    lookup STORE_TOKENS self w = (w', inr tt)
    ∧ SocialToken_objects w'
      = <[kt := refreshed_token kt trow tok]> (SocialToken_objects w)
    ∧ logins w' !! self = Some s'
    ∧ token s' = Some t
    ∧ tokens w' !! t = Some (refreshed_token kt trow tok)
    ∧ tokens w' !! lt = Some tok.
Proof.
  intros Hst Hs Hla Ha Hpk Hfound Howner Hlt Htok Htpk Hstored.
  rewrite (lookup_found_run _ _ _ _ _ _ _ _ _ Hs Hla Ha Hpk Hfound Howner).
  set (w6 := account_reconciled w self s k row candidate ku owner).
  set (s6 := set_user (Some (fresh (dom (users w))))
               (set_account (Some (fresh (dom (accounts w)))) s)).
  exists (token_refreshed w6 self s6 kt trow tok), (set_token (Some (fresh (dom (tokens w)))) s6),
         (fresh (dom (tokens w))).
  split.
  - apply run_try_ok.
    apply (lookup_token_refresh_run w6 self s6 _
             (refreshed w k row candidate (FkObj (fresh (dom (users w))))) k lt tok kt trow);
      try assumption; try reflexivity.
    + unfold w6, account_reconciled. cbn. apply lookup_insert_eq.
    + unfold w6, account_reconciled. cbn. apply lookup_insert_eq.
  - split; [reflexivity|]. split; [cbn; apply lookup_insert_eq|].
    split; [reflexivity|]. split; [cbn; apply lookup_insert_eq|].
    cbn. rewrite lookup_insert_ne by eauto using fresh_lookup_ne. exact Htok.
Qed.


End Lookup.

Lemma fresh_lookup_None {A} (m : gmap positive A) : m !! fresh (dom m) = None.
Proof. apply not_elem_of_dom, is_fresh. Qed.

(** ** Commit: [save] and [connect] *)

Section Save.

(** [app_settings.STORE_TOKENS] and the email collaborator. *)
Variable STORE_TOKENS : bool.
Variable setup_user_email :
  Request → User.t → list EmailAddress.t →
  list (option key * EmailAddress.t) → list (option key * EmailAddress.t).

Lemma run_new_account_key w ka :
  new_account_key w = ka → account_pk_on_save None w = (w, inr ka).
Proof. intros <-. reflexivity. Qed.

Lemma run_User_save w lu u :
  users w !! lu = Some u →
  User_save (Some lu) w =
    (cell_set User_table
       (<[key_on_save (User_objects w) (User.pk u) := saved_user w u]> (User_objects w))
       (cell_set users_cell (<[lu := saved_user w u]> (users w)) w), inr tt).
Proof.
  intros Hu. unfold User_save. step_deref.
  step ltac:(instantiate (1 := key_on_save (User_objects w) (User.pk u));
             instantiate (1 := w);
             unfold pk_on_save, key_on_save; destruct (User.pk u); reflexivity).
  step_setattr. reflexivity.
Qed.

Lemma save_run w self request connect s la candidate lu u :
  logins w !! self = Some s →
  account s = Some la → accounts w !! la = Some candidate →
  SocialAccount.pk candidate = None →
  user s = Some lu → users w !! lu = Some u →
  token_allocated w s →
  no_stored_account w (SocialAccount.provider candidate) (SocialAccount.uid candidate) →
  save STORE_TOKENS setup_user_email self request connect w
  = (committed STORE_TOKENS setup_user_email w request connect s la candidate lu u, inr tt).
Proof.
  intros Hs Hla Ha Hpk Hlu Hu Htok Hnone.
  unfold save.
  step ltac:(apply run_is_existing; exists s, la; eauto).
  rewrite Hpk. cbn [truthy negb assert].
  step ltac:(reflexivity).
  step_deref. rewrite Hlu, Hla.
  step ltac:(apply run_User_save; eassumption).
  step_setattr.
  step ltac:(unfold SocialAccount_save; step_deref;
             cbn [SocialAccount.user SocialAccount.set_user assigned];
             step ltac:(unfold related_id; step_deref; reflexivity);
             cbn [SocialAccount.pk SocialAccount.set_user SocialAccount.provider
                  SocialAccount.uid];
             rewrite Hpk;
             step ltac:(apply (run_new_account_key _ (new_account_key w)); reflexivity);
             step ltac:(reflexivity);
             step ltac:(reflexivity);
             step ltac:(reflexivity);
             rewrite new_account_key_None, bool_decide_eq_true_2 by reflexivity;
             rewrite (no_stored_account_no_conflict _ _ _ _ Hnone);
             cbn [refused User.pk User.set_pk saved_user];
             step_setattr; reflexivity).
  rewrite insert_insert_eq.
  unfold committed, token_to_store.
  destruct STORE_TOKENS; cbn [andb];
    [destruct (token s) as [lt|] eqn:Hlt; cbn [truthy mbind option_bind]|].
  - destruct (Htok lt Hlt) as [tok Htk]. rewrite Htk. cbn [mbind option_bind].
    step ltac:(step_setattr;
               unfold SocialToken_save; step_deref;
               cbn [SocialToken.account SocialToken.set_account assigned];
               step ltac:(unfold related_id; step_deref; reflexivity);
               cbn [SocialToken.pk SocialToken.set_account];
               step ltac:(instantiate (1 := key_on_save (SocialToken_objects w) (SocialToken.pk tok));
                          unfold pk_on_save, key_on_save;
                          destruct (SocialToken.pk tok); reflexivity);
               step ltac:(reflexivity);
               cbn [SocialToken.app SocialToken.set_account fk_key SocialAccount.pk
                    auto_fields SocialAccount.set_pk];
               rewrite new_account_no_token_conflict; cbn [refused];
               step_setattr; reflexivity).
    rewrite insert_insert_eq.
    destruct connect; [reflexivity|]. step_deref. reflexivity.
  - step ltac:(reflexivity).
    destruct connect; [reflexivity|]. step_deref. reflexivity.
  - step ltac:(reflexivity).
    destruct connect; [reflexivity|]. step_deref. reflexivity.
Qed.

Lemma token_to_store_Some w s lt tok :
  STORE_TOKENS = true → token s = Some lt → tokens w !! lt = Some tok →
  token_to_store STORE_TOKENS w s = Some (lt, tok).
Proof.
  intros Hst Hlt Htok. unfold token_to_store. rewrite Hst, Hlt. cbn. rewrite Htok.
  reflexivity.
Qed.

Lemma token_to_store_None w s :
  STORE_TOKENS = false ∨ token s = None → token_to_store STORE_TOKENS w s = None.
Proof.
  intros [Hst|Hlt]; unfold token_to_store.
  - rewrite Hst. reflexivity.
  - rewrite Hlt. destruct STORE_TOKENS; reflexivity.
Qed.

(** C5, as amended: [save] on a session that is existing raises
    [AssertionError]
    and changes nothing; that is neither [PermissionDenied] nor a
    [DoesNotExist].  On a session that is not existing, when no stored
    account has the candidate's (provider, uid) pair, [save] returns
    normally: the user is stored, the account is stored under a new
    key with that user as its owner, the token (when tokens are stored
    and the session has one) is stored bound to that account, and the
    session is existing afterwards. *)
Theorem save_commits_once (w : World) (self : loc) (request : Request)
    (connect : bool) (s : SocialLogin) (la : loc) (candidate : SocialAccount.t) :
  logins w !! self = Some s →
  account s = Some la → accounts w !! la = Some candidate →
  (∀ k, SocialAccount.pk candidate = Some k →
     save STORE_TOKENS setup_user_email self request connect w = (w, inl AssertionError)
     ∧ AssertionError ≠ PermissionDenied
     ∧ ∀ m, AssertionError ≠ DoesNotExist m)
  ∧ (SocialAccount.pk candidate = None →
     no_stored_account w (SocialAccount.provider candidate) (SocialAccount.uid candidate) →
     ∀ lu u, user s = Some lu → users w !! lu = Some u → token_allocated w s →
     ∃ w' ku ka,
       save STORE_TOKENS setup_user_email self request connect w = (w', inr tt)
       ∧ is_existing self w' = (w', inr (Some ka))
       ∧ User_objects w' !! ku = Some (saved_user w u)
       ∧ User.pk (saved_user w u) = Some ku
       ∧ SocialAccount_objects w' !! ka = Some (saved_account w candidate (FkId ku))
       ∧ SocialAccount_objects w !! ka = None
       ∧ (∀ lt tok, STORE_TOKENS = true → token s = Some lt → tokens w !! lt = Some tok →
            ∃ kt, SocialToken_objects w' !! kt = Some (saved_token w tok (FkId ka)))).
Proof.
  intros Hs Hla Ha. split.
  - intros k Hpk. split; [|split; [discriminate|discriminate]].
    unfold save.
    step ltac:(apply run_is_existing; exists s, la; eauto).
    rewrite Hpk. reflexivity.
  - intros Hpk Hnone lu u Hlu Hu Htok.
    exists (committed STORE_TOKENS setup_user_email w request connect s la candidate lu u),
           (key_on_save (User_objects w) (User.pk u)),
           (new_account_key w).
    split; [apply save_run; assumption|].
    split.
    { apply (run_is_existing _ self (saved_account w candidate (FkObj lu))).
      exists s, la. cbn. rewrite lookup_insert_eq. auto. }
    split; [cbn; apply lookup_insert_eq|].
    split; [reflexivity|].
    split; [cbn; apply lookup_insert_eq|].
    split; [apply new_account_key_None|].
    intros lt tok Hst Hlt Htk. eexists. cbn.
    rewrite (token_to_store_Some _ _ _ _ Hst Hlt Htk). apply lookup_insert_eq.
Qed.

(** C8, as amended: on a session that is not existing, when no stored
    account has
    the candidate's (provider, uid) pair, [save] with [connect=True]
    leaves the email addresses as they are, and still stores user,
    account and token; [save] without [connect] hands the stored user and
    the session's candidate email addresses to [setup_user_email].
    [connect] is [save] with [connect=True] for the given user. *)
Theorem save_connect_skips_emails (w : World) (self : loc) (request : Request)
    (s : SocialLogin) (la : loc) (candidate : SocialAccount.t) (lu : loc) (u : User.t) :
  logins w !! self = Some s →
  account s = Some la → accounts w !! la = Some candidate →
  SocialAccount.pk candidate = None →
  no_stored_account w (SocialAccount.provider candidate) (SocialAccount.uid candidate) →
  user s = Some lu → users w !! lu = Some u → token_allocated w s →
  (∃ w', save STORE_TOKENS setup_user_email self request true w = (w', inr tt)
         ∧ EmailAddress_objects w' = EmailAddress_objects w
         ∧ User_objects w' !! key_on_save (User_objects w) (User.pk u)
           = Some (saved_user w u)
         ∧ SocialAccount_objects w' !! new_account_key w
           = Some (saved_account w candidate
                     (FkId (key_on_save (User_objects w) (User.pk u))))
         ∧ (∀ lt tok, STORE_TOKENS = true → token s = Some lt →
              tokens w !! lt = Some tok →
              SocialToken_objects w' !! key_on_save (SocialToken_objects w) (SocialToken.pk tok)
              = Some (saved_token w tok (FkId (new_account_key w)))))
  ∧ (∃ w', save STORE_TOKENS setup_user_email self request false w = (w', inr tt)
           ∧ EmailAddress_objects w'
             = setup_user_email request (saved_user w u) (email_addresses s)
                 (EmailAddress_objects w))
  ∧ (∀ new_user,
       connect STORE_TOKENS setup_user_email self request new_user w
       = save STORE_TOKENS setup_user_email self request true
           (cell_set logins_cell (<[self := set_user new_user s]> (logins w)) w)).
Proof.
  intros Hs Hla Ha Hpk Hnone Hlu Hu Htok. split; [|split].
  - exists (committed STORE_TOKENS setup_user_email w request true s la candidate lu u).
    split; [apply save_run; assumption|].
    split; [reflexivity|].
    split; [cbn; apply lookup_insert_eq|].
    split; [cbn; apply lookup_insert_eq|].
    intros lt tok Hst Hlt Htk. cbn.
    rewrite (token_to_store_Some _ _ _ _ Hst Hlt Htk). apply lookup_insert_eq.
  - exists (committed STORE_TOKENS setup_user_email w request false s la candidate lu u).
    split; [apply save_run; assumption|]. reflexivity.
  - intros new_user. unfold connect. step_setattr. reflexivity.
Qed.

End Save.

(** ** Serialization *)

Lemma run_getitem {S V} (data : gmap string V) k v (s : S) :
  data !! k = Some v → getitem data k s = (s, inr v).
Proof. intros E. unfold getitem. rewrite E. reflexivity. Qed.

Lemma run_deserialize_each {S Blob A} `{!InstanceCodec Blob A, !CodecLaw Blob A}
    (l : list A) (s : S) :
  deserialize_each (serialize_instance <$> l) s = (s, inr l).
Proof.
  induction l as [|x l IH]; [reflexivity|].
  cbn [fmap list_fmap deserialize_each].
  step ltac:(unfold lift; rewrite codec_roundtrip; reflexivity).
  step ltac:(apply IH). reflexivity.
Qed.

Lemma run_deserialize_each_given {S Blob A} `{!InstanceCodec Blob A}
    (l l' : list A) (s : S) :
  Forall2 gives_back l l' →
  deserialize_each (serialize_instance <$> l) s = (s, inr l').
Proof.
  induction 1 as [|x x' l l' Hx Hl IH]; [reflexivity|].
  cbn [fmap list_fmap deserialize_each].
  step ltac:(unfold lift; rewrite Hx; reflexivity).
  step ltac:(apply IH). reflexivity.
Qed.

Section Serialize.

Context {Blob : Type}.
Context `{!InstanceCodec Blob User.t, !InstanceCodec Blob SocialAccount.t,
          !InstanceCodec Blob SocialToken.t, !InstanceCodec Blob EmailAddress.t}.

Ltac item :=
  step ltac:(apply run_getitem;
             repeat (rewrite lookup_insert_ne by discriminate);
             apply lookup_insert_eq).

Ltac decode H := step ltac:(unfold lift; rewrite H; reflexivity).

(** C3, as amended: [serialize] puts a "token" key in the mapping
    exactly when the session has a token, and [deserialize] of that
    mapping, in any world, builds a new session that holds the
    instances the adapter gives back for the account, the user, the
    email addresses and the token, has the same state, and has a token
    exactly when the session had one. *)
Theorem deserialize_serialize (w : World) (self : loc) (s : SocialLogin)
    (la : loc) (a : SocialAccount.t) (lu : loc) (u : User.t) :
  logins w !! self = Some s →
  account s = Some la → accounts w !! la = Some a →
  user s = Some lu → users w !! lu = Some u →
  (∀ lt, token s = Some lt → is_Some (tokens w !! lt)) →
  ∃ data,
    serialize self w = (w, inr data)
    ∧ (is_Some (data !! "token") ↔ is_Some (token s))
    ∧ ∀ a' u' eas' t' w2,
        gives_back a a' → gives_back u u' →
        Forall2 gives_back (email_addresses s) eas' →
        (∀ lt t, token s = Some lt → tokens w !! lt = Some t → gives_back t t') →
        ∃ w2' self' s' la' lu',
          deserialize data w2 = (w2', inr self')
          ∧ logins w2 !! self' = None
          ∧ logins w2' !! self' = Some s'
          ∧ account s' = Some la' ∧ accounts w2' !! la' = Some a'
          ∧ user s' = Some lu' ∧ users w2' !! lu' = Some u'
          ∧ email_addresses s' = eas'
          ∧ state s' = state s
          ∧ (is_Some (token s') ↔ is_Some (token s))
          ∧ (∀ lt', token s' = Some lt' → tokens w2' !! lt' = Some t').
Proof.
  intros Hs Hla Ha Hlu Hu Htok.
  destruct (token s) as [lt|] eqn:Hlt.
  - destruct (Htok lt eq_refl) as [t Ht].
    eexists. split; [|split].
    + unfold serialize. step_deref. rewrite Hla, Hlu, Hlt.
      step_deref. step_deref. cbn [truthy]. step_deref. reflexivity.
    + rewrite lookup_insert_eq. split; eauto.
    + intros a' u' eas' t' w2 Ha' Hu' Heas Ht'.
      specialize (Ht' lt t eq_refl Ht). unfold gives_back in Ha', Hu', Ht'.
      eexists _, _, _, _, _. split.
      * unfold deserialize.
        step ltac:(item; step ltac:(reflexivity); decode Ha'; reflexivity).
        step ltac:(item; step ltac:(reflexivity); decode Hu'; reflexivity).
        rewrite lookup_insert_eq.
        step ltac:(step ltac:(reflexivity); decode Ht'; step ltac:(reflexivity);
                   reflexivity).
        step ltac:(item; step ltac:(reflexivity);
                   apply run_deserialize_each_given; exact Heas).
        step ltac:(reflexivity).
        step_setattr. rewrite insert_insert_eq.
        step_setattr. rewrite insert_insert_eq.
        step_setattr. rewrite insert_insert_eq.
        step_setattr. rewrite insert_insert_eq.
        step ltac:(item; reflexivity).
        step_setattr. rewrite insert_insert_eq.
        reflexivity.
      * cbn. split; [apply fresh_lookup_None|].
        split; [apply lookup_insert_eq|].
        split; [reflexivity|]. split; [apply lookup_insert_eq|].
        split; [reflexivity|]. split; [apply lookup_insert_eq|].
        split; [reflexivity|]. split; [reflexivity|].
        split; [split; eauto|].
        intros lt' Hlt'. inversion Hlt'. apply lookup_insert_eq.
  - eexists. split; [|split].
    + unfold serialize. step_deref. rewrite Hla, Hlu, Hlt.
      step_deref. step_deref. reflexivity.
    + repeat (rewrite lookup_insert_ne by discriminate). rewrite lookup_empty.
      split; intros [? ?]; discriminate.
    + intros a' u' eas' t' w2 Ha' Hu' Heas _. unfold gives_back in Ha', Hu'.
      eexists _, _, _, _, _. split.
      * unfold deserialize.
        step ltac:(item; step ltac:(reflexivity); decode Ha'; reflexivity).
        step ltac:(item; step ltac:(reflexivity); decode Hu'; reflexivity).
        repeat (rewrite lookup_insert_ne by discriminate). rewrite lookup_empty.
        step ltac:(reflexivity).
        step ltac:(item; step ltac:(reflexivity);
                   apply run_deserialize_each_given; exact Heas).
        step ltac:(reflexivity).
        step_setattr. rewrite insert_insert_eq.
        step_setattr. rewrite insert_insert_eq.
        step_setattr. rewrite insert_insert_eq.
        step_setattr. rewrite insert_insert_eq.
        step ltac:(item; reflexivity).
        step_setattr. rewrite insert_insert_eq.
        reflexivity.
      * cbn. split; [apply fresh_lookup_None|].
        split; [apply lookup_insert_eq|].
        split; [reflexivity|]. split; [apply lookup_insert_eq|].
        split; [reflexivity|]. split; [apply lookup_insert_eq|].
        split; [reflexivity|]. split; [reflexivity|].
        split; [split; intros [? ?]; discriminate|].
        intros lt' Hlt'. discriminate.
Qed.

End Serialize.

(** ** Deciding the store predicates by running the query *)

Lemma no_stored_account_of_select w provider uid :
  select (account_matches provider uid) (SocialAccount_objects w) = [] →
  no_stored_account w provider uid.
Proof.
  intros Hsel k row Hk Hm.
  pose proof (proj1 (select_nil _ _) Hsel k row Hk) as Hf.
  unfold account_matches in Hf. apply bool_decide_eq_false_1 in Hf. contradiction.
Qed.

Lemma stored_account_of_select w provider uid k row :
  select (account_matches provider uid) (SocialAccount_objects w) = [(k, row)] →
  stored_account w provider uid k row.
Proof.
  intros Hsel. apply select_one in Hsel as (Hk & Hm & Huniq).
  apply bool_decide_eq_true_1 in Hm as [Hp Hu].
  split; [assumption|]. split; [assumption|]. split; [assumption|].
  intros k' row' Hk' Hp' Hu'. apply (Huniq k' row' Hk').
  apply bool_decide_eq_true_2. auto.
Qed.

Lemma stored_token_of_select w k app kt row :
  select (token_matches (Some k) app) (SocialToken_objects w) = [(kt, row)] →
  stored_token w k app kt row.
Proof.
  intros Hsel. apply select_one in Hsel as (Hk & Hm & Huniq).
  assert (∀ r, token_matches (Some k) app r = true ↔
               SocialToken.account r = FkId k ∧ SocialToken.app r = app) as Hspec.
  { intros r. unfold token_matches. rewrite andb_true_iff, bool_decide_eq_true.
    destruct (SocialToken.account r) as [| |k'].
    - split; [intros [? _]|intros [? _]]; discriminate.
    - split; [intros [? _]|intros [? _]]; discriminate.
    - rewrite bool_decide_eq_true. split; intros [? ?]; split; congruence. }
  apply Hspec in Hm as [Ha Hp].
  split; [assumption|]. split; [assumption|]. split; [assumption|].
  intros kt' row' Hk' Ha' Hp'. apply (Huniq kt' row' Hk'). apply Hspec. auto.
Qed.

Lemma no_stored_token_of_select w k app :
  select (token_matches (Some k) app) (SocialToken_objects w) = [] →
  no_stored_token w k app.
Proof.
  intros Hsel kt row Hk [Ha Hp].
  pose proof (proj1 (select_nil _ _) Hsel kt row Hk) as Hf.
  unfold token_matches in Hf. rewrite Ha, Hp, !bool_decide_eq_true_2 in Hf by reflexivity.
  discriminate.
Qed.

(** ** The token of a session and its account *)

Lemma run_Model_eq_account w l a account :
  accounts w !! l = Some a →
  (∀ la, account = Some la → is_Some (accounts w !! la)) →
  Model_eq accounts_cell SocialAccount.pk l account w = (w, inr (same_instance w l account)).
Proof.
  intros Hl Hacc. unfold Model_eq, same_instance. rewrite Hl.
  step_deref. destruct account as [la|]; [|destruct (SocialAccount.pk a); reflexivity].
  destruct (SocialAccount.pk a) as [k|].
  - destruct (Hacc la eq_refl) as [b Hb]. step_deref. cbn. rewrite Hb. reflexivity.
  - replace (bool_decide (Some la = Some l)) with (bool_decide (l = la));
      [reflexivity|]. apply bool_decide_ext. split; congruence.
Qed.

(** The constructor establishes the invariant: given no token, or a
    token whose account is set, it raises [AssertionError] for a token
    bound to another account and builds no session; otherwise it builds
    the session, which satisfies the invariant. *)
Lemma init_establishes_token_binding (w : World) (usr acct tkn : option loc)
    (eas : list EmailAddress.t) :
  init_args_allocated w acct tkn →
  ∃ w' outcome,
    __init__ usr acct tkn eas w = (w', outcome)
    ∧ (if token_binding_ok w tkn acct
       then ∃ self, outcome = inr self
                    ∧ logins w !! self = None
                    ∧ logins w' !! self = Some (mkSocialLogin tkn usr acct eas ∅)
                    ∧ session_invariant w' self = true
       else outcome = inl AssertionError ∧ logins w' = logins w)
    ∧ AssertionError ≠ PermissionDenied.
Proof.
  intros [Hacc Htok]. unfold __init__.
  destruct tkn as [lt|]; cbn [truthy].
  - destruct (Htok lt eq_refl) as (tok & Ht & Hfk). clear Htok.
    unfold token_binding_ok at 1. rewrite Ht.
    unfold token_account_ok, SocialToken_account, getattr_fk.
    destruct (SocialToken.account tok) as [|l|k] eqn:Efk.
    + destruct Hfk.
    + destruct Hfk as [a Ha].
      destruct (same_instance w l acct) eqn:Esame.
      * eexists _, _. split; [|split; [|discriminate]].
        -- step ltac:(step ltac:(step ltac:(step_deref; rewrite Efk; reflexivity);
                                 eapply run_Model_eq_account; eassumption);
                      rewrite Esame; reflexivity).
           reflexivity.
        -- eexists. split; [reflexivity|]. split; [apply fresh_lookup_None|].
           cbn. split; [apply lookup_insert_eq|].
           unfold session_invariant. cbn. rewrite lookup_insert_eq. cbn.
           rewrite Ht, Efk. exact Esame.
      * eexists _, _. split; [|split; [|discriminate]].
        -- apply run_bind_raise.
           step ltac:(step ltac:(step_deref; rewrite Efk; reflexivity);
                      eapply run_Model_eq_account; eassumption).
           rewrite Esame. reflexivity.
        -- split; reflexivity.
    + destruct Hfk as [row Hrow].
      set (l := fresh (dom (accounts w))).
      set (w1 := cell_set tokens_cell
                   (<[lt := SocialToken.set_account (FkObj l) tok]> (tokens w))
                   (cell_set accounts_cell
                      (<[l := SocialAccount.set_pk (Some k) row]> (accounts w)) w)).
      assert (getattr_fk tokens_cell SocialToken.account SocialToken.set_account
                SocialAccount_table accounts_cell SocialAccount.set_pk
                SocialAccountModel (Some lt) w = (w1, inr (Some l))) as Hload.
      { unfold getattr_fk. step_deref. rewrite Efk.
        step ltac:(reflexivity). rewrite Hrow.
        step ltac:(reflexivity). step_setattr. reflexivity. }
      assert (same_instance w1 l acct = has_key w acct k) as Hsame.
      { unfold same_instance, w1. cbn. rewrite lookup_insert_eq. cbn.
        unfold has_key. cbn. destruct acct as [la|]; [|reflexivity].
        destruct (Hacc la eq_refl) as [b Hb].
        rewrite lookup_insert_ne by (eapply fresh_lookup_ne; exact Hb).
        reflexivity. }
      assert (token_account_ok (Some lt) acct w = (w1, inr (has_key w acct k)))
        as Hcheck.
      { unfold token_account_ok, SocialToken_account.
        step ltac:(exact Hload). rewrite <- Hsame.
        eapply run_Model_eq_account.
        - unfold w1. cbn. apply lookup_insert_eq.
        - intros la Hla. destruct (Hacc la Hla) as [b Hb]. exists b.
          unfold w1. cbn.
          rewrite lookup_insert_ne by (eapply fresh_lookup_ne; exact Hb). exact Hb. }
      fold (token_account_ok (Some lt) acct).
      destruct (has_key w acct k) eqn:Ekey.
      * eexists _, _. split; [|split; [|discriminate]].
        -- step ltac:(step ltac:(exact Hcheck); reflexivity). reflexivity.
        -- eexists. split; [reflexivity|]. split; [apply fresh_lookup_None|].
           cbn. split; [apply lookup_insert_eq|].
           unfold session_invariant. wsimpl. rewrite lookup_insert_eq.
           cbn [token account]. unfold token_binding_ok.
           replace (tokens _ !! lt) with (Some (SocialToken.set_account (FkObj l) tok))
             by (symmetry; unfold w1; cbn; apply lookup_insert_eq).
           cbn [SocialToken.account SocialToken.set_account].
           exact Hsame.
      * eexists _, _. split; [|split; [|discriminate]].
        -- apply run_bind_raise. step ltac:(exact Hcheck). reflexivity.
        -- split; reflexivity.
  - eexists _, _. split; [|split; [|discriminate]].
    + step ltac:(reflexivity). reflexivity.
    + cbn. eexists. split; [reflexivity|]. split; [apply fresh_lookup_None|].
      cbn. split; [apply lookup_insert_eq|].
      unfold session_invariant. cbn. rewrite lookup_insert_eq. reflexivity.
Qed.

Section Invariant.

Variable setup_user_email :
  Request → User.t → list EmailAddress.t →
  list (option key * EmailAddress.t) → list (option key * EmailAddress.t).

Lemma save_keeps_invariant STORE_TOKENS w self request connect s la candidate lu u :
  logins w !! self = Some s →
  account s = Some la → accounts w !! la = Some candidate →
  SocialAccount.pk candidate = None →
  no_stored_account w (SocialAccount.provider candidate) (SocialAccount.uid candidate) →
  user s = Some lu → users w !! lu = Some u →
  token_allocated w s →
  session_invariant w self = true →
  ∃ w', save STORE_TOKENS setup_user_email self request connect w = (w', inr tt)
        ∧ session_invariant w' self = true.
Proof.
  intros Hs Hla Ha Hpk Hnone Hlu Hu Htok Hinv.
  exists (committed STORE_TOKENS setup_user_email w request connect s la candidate lu u).
  split; [apply save_run; assumption|].
  unfold session_invariant in *. cbn [committed logins]. rewrite Hs in *.
  unfold token_binding_ok in *. destruct (token s) as [lt|] eqn:Hlt; [|reflexivity].
  destruct (Htok lt Hlt) as [tok Htk]. rewrite Htk in Hinv.
  assert (has_key (committed STORE_TOKENS setup_user_email w request connect s la candidate lu u)
            (Some la) (new_account_key w) = true) as Hkey.
  { unfold has_key. cbn. rewrite lookup_insert_eq. cbn.
    apply bool_decide_eq_true_2. reflexivity. }
  assert (same_instance (committed STORE_TOKENS setup_user_email w request connect s la candidate lu u)
            la (Some la) = true) as Hsame.
  { unfold same_instance. cbn [committed accounts]. rewrite lookup_insert_eq.
    cbn [saved_account SocialAccount.pk]. exact Hkey. }
  rewrite Hla in *.
  destruct STORE_TOKENS.
  - cbn. unfold token_to_store. rewrite Hlt. cbn. rewrite Htk. cbn.
    rewrite lookup_insert_eq. cbn. exact Hsame.
  - cbn. rewrite Htk.
    destruct (SocialToken.account tok) as [|l|k0]; [reflexivity| |].
    + unfold same_instance in Hinv. destruct (accounts w !! l) as [a0|] eqn:Hl; [|discriminate].
      destruct (SocialAccount.pk a0) as [k0|].
      * unfold has_key in Hinv. rewrite Ha, Hpk in Hinv.
        apply bool_decide_eq_true_1 in Hinv. discriminate.
      * apply bool_decide_eq_true_1 in Hinv. inversion Hinv. subst l. exact Hsame.
    + unfold has_key in Hinv. rewrite Ha, Hpk in Hinv.
      apply bool_decide_eq_true_1 in Hinv. discriminate.
Qed.

(** The token part of [lookup] when tokens are stored and the session
    has a token: the stored token is refreshed, or the candidate is bound
    and stored, or an exception other than the one [lookup] catches is
    raised. *)
Lemma lookup_token_cases w self s a acc k lt :
  logins w !! self = Some s → account s = Some a →
  accounts w !! a = Some acc → SocialAccount.pk acc = Some k →
  token s = Some lt →
  (∃ tok kt trow,
     tokens w !! lt = Some tok
     ∧ stored_token w k (SocialToken.app tok) kt trow
     ∧ lookup_token true self a w = (token_refreshed w self s kt trow tok, inr tt))
  ∨ (∃ tok,
       tokens w !! lt = Some tok
       ∧ lookup_token true self a w = (token_bound w lt a k tok, inr tt))
  ∨ (∃ w' e, lookup_token true self a w = (w', inl e)
             ∧ e ≠ DoesNotExist SocialAccountModel).
Proof.
  intros Hs Ha Hacc Hk Hlt.
  destruct (tokens w !! lt) as [tok|] eqn:Htk.
  - destruct (SocialToken.pk tok) as [kt0|] eqn:Htpk.
    + right. right. exists w, AssertionError. split; [|discriminate].
      unfold lookup_token. step_deref. rewrite Hlt. cbn [truthy andb].
      step_deref. rewrite Htpk. reflexivity.
    + destruct (select (token_matches (Some k) (SocialToken.app tok)) (SocialToken_objects w))
        as [|[kt trow] [|kr rest]] eqn:Hsel.
      * right. left. exists tok. split; [reflexivity|].
        apply (lookup_token_bind_run true w self s a acc k lt tok); try assumption;
          [reflexivity|]. apply no_stored_token_of_select, Hsel.
      * left. exists tok, kt, trow. split; [reflexivity|].
        pose proof (stored_token_of_select _ _ _ _ _ Hsel) as Hstored.
        split; [exact Hstored|].
        apply (lookup_token_refresh_run true w self s a acc k lt tok kt trow);
          try assumption; reflexivity.
      * right. right. exists w, (MultipleObjectsReturned SocialTokenModel).
        split; [|discriminate].
        unfold lookup_token. step_deref. rewrite Hlt, Ha. cbn [truthy andb].
        step_deref. rewrite Htpk. cbn [truthy negb assert].
        step ltac:(reflexivity).
        apply run_try_uncaught; [|discriminate].
        apply run_bind_raise. unfold SocialToken_objects_get. step_deref. rewrite Hk.
        unfold objects_get. rewrite run_bind. cbn. rewrite Hsel. reflexivity.
  - right. right. exists w, AttributeError. split; [|discriminate].
    unfold lookup_token. step_deref. rewrite Hlt. cbn [truthy andb].
    apply run_bind_raise. unfold deref. wsimpl. rewrite Htk. reflexivity.
Qed.

Lemma lookup_keeps_invariant w w' self s la candidate k row ku owner :
  logins w !! self = Some s → account s = Some la →
  accounts w !! la = Some candidate →
  SocialAccount.pk candidate = None →
  stored_account w (SocialAccount.provider candidate) (SocialAccount.uid candidate) k row →
  stored_owner w row ku owner →
  lookup true self w = (w', inr tt) →
  session_invariant w' self = true.
Proof.
  intros Hs Hla Ha Hpk Hfound Howner.
  rewrite (lookup_found_run _ _ _ _ _ _ _ _ _ _ Hs Hla Ha Hpk Hfound Howner).
  set (w6 := account_reconciled w self s k row candidate ku owner).
  set (a := fresh (dom (accounts w))).
  set (s6 := set_user (Some (fresh (dom (users w)))) (set_account (Some a) s)).
  set (acc := refreshed w k row candidate (FkObj (fresh (dom (users w))))).
  assert (logins w6 !! self = Some s6) as Hs6
    by (unfold w6, account_reconciled; cbn; apply lookup_insert_eq).
  assert (accounts w6 !! a = Some acc) as Ha6
    by (unfold w6, account_reconciled; cbn; apply lookup_insert_eq).
  intros Hrun.
  destruct (token s) as [lt|] eqn:Hlt.
  - destruct (lookup_token_cases w6 self s6 a acc k lt Hs6 eq_refl Ha6 eq_refl Hlt)
      as [(tok & kt & trow & Htk & Hstored & Hrefresh)
         |[(tok & Htk & Hbind)|(w'' & e & Hraise & He)]].
    + rewrite (run_try_ok _ _ _ _ _ _ Hrefresh) in Hrun. inversion Hrun. subst w'.
      unfold session_invariant. cbn. rewrite lookup_insert_eq. cbn.
      rewrite lookup_insert_eq. cbn.
      destruct Hstored as (_ & Hfk & _). rewrite Hfk.
      unfold has_key. cbn. rewrite lookup_insert_eq. cbn.
      apply bool_decide_eq_true_2. reflexivity.
    + rewrite (run_try_ok _ _ _ _ _ _ Hbind) in Hrun. inversion Hrun. subst w'.
      unfold session_invariant. cbn. rewrite lookup_insert_eq. cbn. rewrite Hlt.
      unfold token_binding_ok. cbn. rewrite lookup_insert_eq. cbn.
      unfold same_instance. cbn. rewrite lookup_insert_eq. cbn.
      unfold has_key. cbn. rewrite lookup_insert_eq. cbn.
      apply bool_decide_eq_true_2. reflexivity.
    + rewrite (run_try_uncaught _ _ _ _ _ _ Hraise He) in Hrun. discriminate.
  - assert (lookup_token true self a w6 = (w6, inr tt)) as Hquiet.
    { unfold lookup_token. step ltac:(apply run_deref; exact Hs6).
      unfold s6. cbn [token set_user set_account]. rewrite Hlt. reflexivity. }
    rewrite (run_try_ok _ _ _ _ _ _ Hquiet) in Hrun. inversion Hrun. subst w'.
    unfold session_invariant. rewrite Hs6. unfold s6. cbn. rewrite Hlt. reflexivity.
Qed.

(** When tokens are not stored, [lookup] leaves the token of the session
    as it is: bound to the candidate account, which is no longer the
    account of the session. *)
Lemma lookup_without_tokens_unbinds w self s la candidate k row ku owner lt tok :
  logins w !! self = Some s → account s = Some la →
  accounts w !! la = Some candidate →
  SocialAccount.pk candidate = None →
  stored_account w (SocialAccount.provider candidate) (SocialAccount.uid candidate) k row →
  stored_owner w row ku owner →
  token s = Some lt → tokens w !! lt = Some tok →
  SocialToken.account tok = FkObj la →
  session_invariant w self = true
  ∧ ∃ w', lookup false self w = (w', inr tt) ∧ session_invariant w' self = false.
Proof.
  intros Hs Hla Ha Hpk Hfound Howner Hlt Htk Hfk. split.
  - unfold session_invariant, token_binding_ok. rewrite Hs, Hlt, Htk, Hfk, Hla.
    unfold same_instance. rewrite Ha, Hpk. apply bool_decide_eq_true_2. reflexivity.
  - rewrite (lookup_found_run _ _ _ _ _ _ _ _ _ _ Hs Hla Ha Hpk Hfound Howner).
    set (w6 := account_reconciled w self s k row candidate ku owner).
    assert (logins w6 !! self
            = Some (set_user (Some (fresh (dom (users w))))
                      (set_account (Some (fresh (dom (accounts w)))) s))) as Hs6
      by (unfold w6, account_reconciled; cbn; apply lookup_insert_eq).
    exists w6. split.
    + apply run_try_ok. unfold lookup_token. step ltac:(apply run_deref; exact Hs6).
      reflexivity.
    + unfold session_invariant, token_binding_ok. rewrite Hs6.
      cbn [token account set_user set_account]. rewrite Hlt.
      unfold w6, account_reconciled. cbn [tokens]. rewrite Htk, Hfk.
      unfold same_instance. cbn [accounts].
      rewrite lookup_insert_ne by (eapply fresh_lookup_ne; exact Ha).
      rewrite Ha, Hpk. apply bool_decide_eq_false_2. intros E. inversion E as [E'].
      exact (fresh_lookup_ne _ _ _ Ha E').
Qed.

(** C9, as amended: the constructor, given no token or a token whose
    account is set, establishes the invariant, raising [AssertionError]
    (which is not [PermissionDenied]) for a token bound to an account
    other than the session's; [save] keeps the invariant when it
    commits, and a [lookup] that stores tokens, finds the stored account
    and returns normally leaves it true.  A [lookup] that does not store
    tokens and finds the stored account, on a session whose token is
    bound to its candidate account, returns normally and falsifies it. *)
Theorem token_binding_invariant :
  (∀ w usr acct tkn eas,
     init_args_allocated w acct tkn →
     ∃ w' outcome,
       __init__ usr acct tkn eas w = (w', outcome)
       ∧ (if token_binding_ok w tkn acct
          then ∃ self, outcome = inr self
                       ∧ logins w !! self = None
                       ∧ logins w' !! self = Some (mkSocialLogin tkn usr acct eas ∅)
                       ∧ session_invariant w' self = true
          else outcome = inl AssertionError ∧ logins w' = logins w)
       ∧ AssertionError ≠ PermissionDenied)
  ∧ (∀ STORE_TOKENS w self request connect s la candidate lu u,
       logins w !! self = Some s →
       account s = Some la → accounts w !! la = Some candidate →
       SocialAccount.pk candidate = None →
       no_stored_account w (SocialAccount.provider candidate)
         (SocialAccount.uid candidate) →
       user s = Some lu → users w !! lu = Some u →
       token_allocated w s →
       session_invariant w self = true →
       ∃ w', save STORE_TOKENS setup_user_email self request connect w = (w', inr tt)
             ∧ session_invariant w' self = true)
  ∧ (∀ w w' self s la candidate k row ku owner,
       logins w !! self = Some s → account s = Some la →
       accounts w !! la = Some candidate →
       SocialAccount.pk candidate = None →
       stored_account w (SocialAccount.provider candidate)
         (SocialAccount.uid candidate) k row →
       stored_owner w row ku owner →
       lookup true self w = (w', inr tt) →
       session_invariant w' self = true)
  ∧ (∀ w self s la candidate k row ku owner lt tok,
       logins w !! self = Some s → account s = Some la →
       accounts w !! la = Some candidate →
       SocialAccount.pk candidate = None →
       stored_account w (SocialAccount.provider candidate)
         (SocialAccount.uid candidate) k row →
       stored_owner w row ku owner →
       token s = Some lt → tokens w !! lt = Some tok →
       SocialToken.account tok = FkObj la →
       session_invariant w self = true
       ∧ ∃ w', lookup false self w = (w', inr tt) ∧ session_invariant w' self = false).
Proof.
  split; [|split; [|split]].
  - intros w usr acct tkn eas Hargs. apply init_establishes_token_binding, Hargs.
  - intros STORE_TOKENS w self request connect s la candidate lu u.
    apply save_keeps_invariant.
  - intros w w' self s la candidate k row ku owner. apply lookup_keeps_invariant.
  - intros w self s la candidate k row ku owner lt tok.
    apply lookup_without_tokens_unbinds.
Qed.

End Invariant.

(** ** A returning user and a first login, run *)

Lemma stash_then_unstash_witness :
  unstash_state plain_request = (plain_request, inl PermissionDenied).
Proof.
  apply (stash_then_unstash next_of param_of "v1" plain_request). reflexivity.
Defined.

Lemma verify_and_unstash_consumes_witness :
  verify_and_unstash_state "v1" plain_request = (plain_request, inl PermissionDenied).
Proof.
  apply (verify_and_unstash_consumes "v1" plain_request). reflexivity.
Defined.

Lemma lookup_no_match_witness :
  lookup true 1%positive first_login = (first_login, inr tt)
  ∧ is_existing 1%positive first_login = (first_login, inr None).
Proof.
  apply (lookup_no_match true first_login 1%positive github_candidate).
  - exists octocat_login, 1%positive. repeat split; reflexivity.
  - reflexivity.
  - apply no_stored_account_of_select. vm_compute. reflexivity.
Defined.

Lemma lookup_found_witness :
  ∃ w' outcome, lookup true 1%positive returning_user = (w', outcome).
Proof.
  destruct (lookup_found true returning_user 1%positive octocat_login 1%positive
              github_candidate 7%positive github_stored 3%positive alice)
    as (w' & outcome & _ & _ & _ & H & _).
  - reflexivity.
  - reflexivity.
  - reflexivity.
  - reflexivity.
  - apply stored_account_of_select. vm_compute. reflexivity.
  - split; reflexivity.
  - exists w', outcome. exact H.
Defined.

Lemma lookup_refreshes_token_witness :
  ∃ w', lookup true 1%positive returning_user = (w', inr tt)
        ∧ SocialToken_objects w' !! 5%positive
          = Some (SocialToken.mk (Some 5%positive) 1%positive (FkId 7%positive)
                    true "a2" "r1" None).
Proof.
  destruct (lookup_refreshes_token true returning_user 1%positive octocat_login 1%positive
              github_candidate 7%positive github_stored 3%positive alice
              1%positive (candidate_token_a2 None FkUnset) 5%positive stored_token_r1)
    as (w' & s' & t & H & Htable & _).
  - reflexivity.
  - reflexivity.
  - reflexivity.
  - reflexivity.
  - reflexivity.
  - apply stored_account_of_select. vm_compute. reflexivity.
  - split; reflexivity.
  - reflexivity.
  - reflexivity.
  - reflexivity.
  - apply stored_token_of_select. vm_compute. reflexivity.
  - exists w'. split; [exact H|]. rewrite Htable. apply lookup_insert_eq.
Defined.

Lemma lookup_asserts_unsaved_token_witness :
  snd (lookup true 1%positive returning_user_saved_token) = inl AssertionError.
Proof.
  rewrite (lookup_asserts_unsaved_token true returning_user_saved_token 1%positive
             octocat_login 1%positive github_candidate 7%positive github_stored
             3%positive alice 1%positive (candidate_token_a2 (Some 5%positive) FkUnset)
             5%positive).
  - reflexivity.
  - reflexivity.
  - reflexivity.
  - reflexivity.
  - reflexivity.
  - reflexivity.
  - apply stored_account_of_select. vm_compute. reflexivity.
  - split; reflexivity.
  - reflexivity.
  - reflexivity.
  - reflexivity.
Defined.

Lemma save_commits_once_witness :
  ∃ w', save true add_verified 1%positive plain_request false first_login = (w', inr tt).
Proof.
  destruct (save_commits_once true add_verified first_login 1%positive plain_request
              false octocat_login 1%positive github_candidate) as [_ H].
  - reflexivity.
  - reflexivity.
  - reflexivity.
  - destruct (H eq_refl) with (lu := 1%positive) (u := prefilled_user)
      as (w' & ku & ka & Hsave & _).
    + apply no_stored_account_of_select. vm_compute. reflexivity.
    + reflexivity.
    + reflexivity.
    + intros lt Hlt. inversion Hlt. eexists. reflexivity.
    + exists w'. exact Hsave.
Defined.

(** C5, as stated, fails: the session of a returning user is not
    existing, and [save] does not complete: the store holds an account
    with the candidate's (provider, uid) pair and refuses a second one
    with [IntegrityError]; the session is not existing afterwards. *)
Lemma save_refused_for_stored_pair :
  ∃ w',
    is_existing 1%positive returning_user = (returning_user, inr None)
    ∧ save true add_verified 1%positive plain_request false returning_user
      = (w', inl IntegrityError)
    ∧ is_existing 1%positive w' = (w', inr None)
    ∧ SocialAccount_objects w' = SocialAccount_objects returning_user.
Proof.
  eexists. split; [vm_compute; reflexivity|].
  split; [vm_compute; reflexivity|].
  split; vm_compute; reflexivity.
Qed.

Lemma save_connect_skips_emails_witness :
  ∃ w', save true add_verified 1%positive plain_request true first_login = (w', inr tt)
        ∧ EmailAddress_objects w' = [].
Proof.
  destruct (save_connect_skips_emails true add_verified first_login 1%positive
              plain_request octocat_login 1%positive github_candidate
              1%positive prefilled_user) as [(w' & Hsave & Hemails & _) _].
  - reflexivity.
  - reflexivity.
  - reflexivity.
  - reflexivity.
  - apply no_stored_account_of_select. vm_compute. reflexivity.
  - reflexivity.
  - reflexivity.
  - intros lt Hlt. inversion Hlt. eexists. reflexivity.
  - exists w'. split; [exact Hsave|exact Hemails].
Defined.

(** C8, as stated, fails: when the candidate's (provider, uid) pair is
    stored, [save] with [connect=True] raises [IntegrityError] and stores
    neither the account nor the token, and [save] without [connect]
    raises it too and never reaches [setup_user_email]. *)
Lemma connect_refused_for_stored_pair :
  ∃ w1 w2,
    save true add_verified 1%positive plain_request true connecting_stored
    = (w1, inl IntegrityError)
    ∧ SocialAccount_objects w1 = SocialAccount_objects connecting_stored
    ∧ SocialToken_objects w1 = SocialToken_objects connecting_stored
    ∧ save true add_verified 1%positive plain_request false connecting_stored
      = (w2, inl IntegrityError)
    ∧ EmailAddress_objects w2 = EmailAddress_objects connecting_stored.
Proof.
  eexists _, _. split; [vm_compute; reflexivity|].
  split; [vm_compute; reflexivity|].
  split; [vm_compute; reflexivity|].
  split; vm_compute; reflexivity.
Qed.

Lemma deserialize_serialize_witness :
  ∃ data, @serialize instance user_codec ms_account_codec token_codec email_codec
            1%positive stamped_session = (stamped_session, inr data)
          ∧ is_Some (data !! "token")
          ∧ ∃ w2' self' s' la',
              @deserialize instance user_codec ms_account_codec token_codec email_codec
                data first_login = (w2', inr self')
              ∧ logins w2' !! self' = Some s'
              ∧ account s' = Some la'
              ∧ accounts w2' !! la'
                = Some (SocialAccount.mk (Some 7%positive) (FkId 3%positive) "github" "42"
                          (Some 1234000%Z) (Some 1234000%Z) (octocat_profile "new")).
Proof.
  destruct (@deserialize_serialize instance user_codec ms_account_codec token_codec
              email_codec
              stamped_session 1%positive stamped_login 1%positive stamped_account
              1%positive alice)
    as (data & Hser & Htoken & Hback).
  - reflexivity.
  - reflexivity.
  - reflexivity.
  - reflexivity.
  - reflexivity.
  - intros lt Hlt. inversion Hlt. eexists. reflexivity.
  - destruct (Hback (SocialAccount.mk (Some 7%positive) (FkId 3%positive) "github" "42"
                       (Some 1234000%Z) (Some 1234000%Z) (octocat_profile "new"))
                alice [EmailAddress.mk "octocat@example.org" true true]
                stored_token_r1 first_login)
      as (w2' & self' & s' & la' & lu' & Hde & _ & Hs' & Hla' & Ha' & _).
    + reflexivity.
    + reflexivity.
    + repeat constructor.
    + intros lt t Hlt Ht. inversion Hlt. subst lt. vm_compute in Ht.
      inversion Ht. reflexivity.
    + exists data. split; [exact Hser|]. split; [apply Htoken; eexists; reflexivity|].
      exists w2', self', s', la'. auto.
Defined.

(** C3, as stated, fails: with a serializer that writes timestamps with
    millisecond precision, the account of the session rebuilt from the
    serialized form is not the account that was serialized. *)
Lemma roundtrip_cuts_timestamps :
  ∃ data w' self' s' la' a',
    @serialize instance user_codec ms_account_codec token_codec email_codec
      1%positive stamped_session = (stamped_session, inr data)
    ∧ @deserialize instance user_codec ms_account_codec token_codec email_codec
        data stamped_session = (w', inr self')
    ∧ logins w' !! self' = Some s'
    ∧ account s' = Some la'
    ∧ accounts w' !! la' = Some a'
    ∧ candidate_account stamped_session 1%positive stamped_account
    ∧ SocialAccount.last_login stamped_account = Some 1234567%Z
    ∧ SocialAccount.last_login a' = Some 1234000%Z.
Proof.
  eexists _, _, _, _, _, _. split; [vm_compute; reflexivity|].
  split; [vm_compute; reflexivity|].
  split; [vm_compute; reflexivity|].
  split; [reflexivity|].
  split; [vm_compute; reflexivity|].
  split; [eexists _, _; repeat split; vm_compute; reflexivity|].
  split; reflexivity.
Qed.

Lemma token_binding_invariant_witness :
  (∃ w' outcome,
     __init__ (Some 1%positive) (Some 1%positive) (Some 1%positive) [] before_construction
     = (w', outcome))
  ∧ (∃ w', save true add_verified 1%positive plain_request false first_login = (w', inr tt)
           ∧ session_invariant w' 1%positive = true)
  ∧ session_invariant (lookup true 1%positive returning_user).1 1%positive = true
  ∧ (∃ w', lookup false 1%positive returning_user_bound_token = (w', inr tt)
           ∧ session_invariant w' 1%positive = false).
Proof.
  destruct (token_binding_invariant add_verified) as (Hinit & Hsave & Hlookup & Hloose).
  split; [|split; [|split]].
  - destruct (Hinit before_construction
                (Some 1%positive) (Some 1%positive) (Some 1%positive) [])
      as (w' & outcome & H & _).
    + split.
      * intros la Hla. inversion Hla. eexists. reflexivity.
      * intros lt Hlt. inversion Hlt. eexists. split; [reflexivity|].
        cbn. eexists. reflexivity.
    + exists w', outcome. exact H.
  - apply (Hsave true first_login 1%positive plain_request false octocat_login
             1%positive github_candidate 1%positive prefilled_user).
    + reflexivity.
    + reflexivity.
    + reflexivity.
    + reflexivity.
    + apply no_stored_account_of_select. vm_compute. reflexivity.
    + reflexivity.
    + reflexivity.
    + intros lt Hlt. inversion Hlt. eexists. reflexivity.
    + vm_compute. reflexivity.
  - apply (Hlookup returning_user _ 1%positive octocat_login 1%positive github_candidate
             7%positive github_stored 3%positive alice).
    + reflexivity.
    + reflexivity.
    + reflexivity.
    + reflexivity.
    + apply stored_account_of_select. vm_compute. reflexivity.
    + split; reflexivity.
    + vm_compute. reflexivity.
  - apply (Hloose returning_user_bound_token 1%positive octocat_login 1%positive
             github_candidate 7%positive github_stored 3%positive alice
             1%positive (candidate_token_a2 None (FkObj 1%positive))).
    + reflexivity.
    + reflexivity.
    + reflexivity.
    + reflexivity.
    + apply stored_account_of_select. vm_compute. reflexivity.
    + split; reflexivity.
    + reflexivity.
    + reflexivity.
    + reflexivity.
Defined.

(** C9, as stated, fails: a session built by the constructor with its
    token bound to its candidate account satisfies the invariant; when
    tokens are not stored, [lookup] finds the stored account, makes it
    the session's account and leaves the token bound to the former
    candidate, which is another instance. *)
Lemma lookup_breaks_token_binding :
  ∃ w1 w2 self,
    __init__ (Some 1%positive) (Some 1%positive) (Some 1%positive) [] before_construction
    = (w1, inr self)
    ∧ session_invariant w1 self = true
    ∧ lookup false self w1 = (w2, inr tt)
    ∧ session_invariant w2 self = false.
Proof.
  eexists _, _, _. split; [vm_compute; reflexivity|].
  split; [vm_compute; reflexivity|].
  split; vm_compute; reflexivity.
Qed.

(** The handshake of the testable properties: a stash with verifier
    "v1", a callback with the verifier "wrong", and a replay with "v1". *)
Example verify_mismatch_then_replay :
  ∃ stashed_request popped,
    stash_state next_of param_of "v1" plain_request = (stashed_request, inr "v1")
    ∧ verify_and_unstash_state "wrong" stashed_request = (popped, inl PermissionDenied)
    ∧ verify_and_unstash_state "v1" popped = (popped, inl PermissionDenied).
Proof.
  eexists _, _. split; [vm_compute; reflexivity|]. split; vm_compute; reflexivity.
Qed.

(** A first login: [lookup] finds nothing, [save] creates user, account
    and token, and a second [save] is refused. *)
Example first_login_then_save_twice :
  ∃ w1 w2,
    lookup true 1%positive first_login = (first_login, inr tt)
    ∧ save true add_verified 1%positive plain_request false first_login = (w1, inr tt)
    ∧ is_existing 1%positive w1 = (w1, inr (Some 1%positive))
    ∧ EmailAddress_objects w1
      = [(Some 1%positive, EmailAddress.mk "octocat@example.org" true true)]
    ∧ save true add_verified 1%positive plain_request false w1 = (w2, inl AssertionError)
    ∧ w2 = w1.
Proof.
  eexists _, _. split; [vm_compute; reflexivity|].
  split; [vm_compute; reflexivity|].
  split; [vm_compute; reflexivity|].
  split; [vm_compute; reflexivity|].
  split; vm_compute; reflexivity.
Qed.

(** * Further properties of the module *)

(** ** The verifier stash, continued *)

Section StashMore.

Variable get_next_redirect_url : Request → option string.
Variable get_request_param : Request → string → string → string.

Local Abbreviation stash := (stash_state get_next_redirect_url get_request_param).
Local Abbreviation state_of := (state_from_request get_next_redirect_url get_request_param).

(** X1: [verify_and_unstash_state] with the verifier that [stash_state]
    returned gives back the state derived from the request at stash
    time and removes the entry; with any other verifier it raises
    [PermissionDenied] and removes the entry as well. *)
Theorem stash_then_verify (rnd : string) (request : Request) :
  ∃ stored popped,
    stash rnd request = (stored, inr rnd)
    ∧ verify_and_unstash_state rnd stored = (popped, inr (state_of request))
    ∧ stashed popped = None
    ∧ session popped = delete "socialaccount_state" (session request)
    ∧ ∀ other, other ≠ rnd →
        verify_and_unstash_state other stored = (popped, inl PermissionDenied).
Proof.
  eexists _, _. split; [apply stash_state_run|].
  split; [|split; [|split]].
  - rewrite verify_and_unstash_state_run. unfold stashed. cbn.
    rewrite lookup_insert_eq, bool_decide_eq_false_2 by (intros H; apply H; reflexivity).
    reflexivity.
  - unfold stashed. cbn. apply lookup_delete_eq.
  - cbn. apply delete_insert_eq.
  - intros other Hne. rewrite verify_and_unstash_state_run. unfold stashed. cbn.
    rewrite lookup_insert_eq, bool_decide_eq_true_2 by assumption. reflexivity.
Qed.

(** X2: the session store holds one pending handshake: a second
    [stash_state] replaces the first, whose verifier is then refused. *)
Theorem stash_overwrites (v1 v2 : string) (request : Request) :
  ∃ first second,
    stash v1 request = (first, inr v1)
    ∧ stash v2 first = (second, inr v2)
    ∧ session second
      = <["socialaccount_state" := (state_of first, v2)]> (session request)
    ∧ (v1 ≠ v2 → (verify_and_unstash_state v1 second).2 = inl PermissionDenied)
    ∧ (verify_and_unstash_state v2 second).2 = inr (state_of first).
Proof.
  eexists _, _. split; [apply stash_state_run|]. split; [apply stash_state_run|].
  split; [cbn; apply insert_insert_eq|]. split.
  - intros Hne. rewrite verify_and_unstash_state_run. unfold stashed. cbn.
    rewrite lookup_insert_eq, bool_decide_eq_true_2 by assumption. reflexivity.
  - rewrite verify_and_unstash_state_run. unfold stashed. cbn.
    rewrite lookup_insert_eq, bool_decide_eq_false_2 by (intros H; apply H; reflexivity).
    reflexivity.
Qed.

(** X3: the three stash operations touch nothing but the entry
    "socialaccount_state" of the session store, whatever their outcome:
    the other session entries and the request parameters stay. *)
Theorem stash_touches_one_key (rnd verifier : string) (request : Request) (k : string) :
  k ≠ "socialaccount_state" →
  let after_stash := (stash rnd request).1 in
  let after_unstash := (unstash_state request).1 in
  let after_verify := (verify_and_unstash_state verifier request).1 in
  (session after_stash !! k = session request !! k
   ∧ GET after_stash = GET request ∧ POST after_stash = POST request)
  ∧ (session after_unstash !! k = session request !! k
     ∧ GET after_unstash = GET request ∧ POST after_unstash = POST request)
  ∧ (session after_verify !! k = session request !! k
     ∧ GET after_verify = GET request ∧ POST after_verify = POST request).
Proof.
  intros Hk. cbv zeta. split; [|split].
  - rewrite stash_state_run. cbn. rewrite lookup_insert_ne by congruence. auto.
  - rewrite unstash_state_run. destruct (stashed request) as [[st v]|]; cbn; [|auto].
    rewrite lookup_delete_ne by congruence. auto.
  - rewrite verify_and_unstash_state_run.
    destruct (stashed request) as [[st v]|]; cbn; [|auto].
    rewrite lookup_delete_ne by congruence. auto.
Qed.

Lemma state_from_request_next (request : Request) :
  state_of request !! "next"
  = match get_next_redirect_url request with
    | Some next_url => if decide (next_url = "") then None else Some next_url
    | None => None
    end.
Proof.
  unfold state_from_request.
  do 3 (rewrite lookup_insert_ne by discriminate).
  destruct (get_next_redirect_url request) as [u|]; [|apply lookup_empty].
  destruct (decide (u = "")) as [->|Hne].
  - rewrite bool_decide_eq_false_2 by (intros H; apply H; reflexivity). apply lookup_empty.
  - rewrite bool_decide_eq_true_2 by assumption. apply lookup_insert_eq.
Qed.

(** X4: the state derived from a request always has the entries
    "process", "scope" and "auth_params" (the request's parameters, with
    the defaults "login", "" and ""), has an entry "next" exactly when
    the request has a non-empty redirect URL, and has no other entry. *)
Theorem state_from_request_entries (request : Request) :
  let state := state_of request in
  state !! "process" = Some (get_request_param request "process" "login")
  ∧ state !! "scope" = Some (get_request_param request "scope" "")
  ∧ state !! "auth_params" = Some (get_request_param request "auth_params" "")
  ∧ state !! "next"
    = match get_next_redirect_url request with
      | Some next_url => if decide (next_url = "") then None else Some next_url
      | None => None
      end
  ∧ ∀ k, is_Some (state !! k) →
         k = "next" ∨ k = "process" ∨ k = "scope" ∨ k = "auth_params".
Proof.
  cbv zeta. unfold state_from_request.
  split; [rewrite lookup_insert_ne by discriminate; rewrite lookup_insert_ne by discriminate;
          apply lookup_insert_eq|].
  split; [rewrite lookup_insert_ne by discriminate; apply lookup_insert_eq|].
  split; [apply lookup_insert_eq|].
  split; [apply state_from_request_next|].
  intros k Hk.
  destruct (decide (k = "auth_params")) as [->|H1]; [auto|].
  destruct (decide (k = "scope")) as [->|H2]; [auto|].
  destruct (decide (k = "process")) as [->|H3]; [auto|].
  destruct (decide (k = "next")) as [->|H4]; [auto|].
  exfalso. do 3 (rewrite lookup_insert_ne in Hk by congruence).
  destruct (get_next_redirect_url request) as [u|];
    [destruct (bool_decide (u ≠ ""))|];
    try (rewrite lookup_insert_ne in Hk by congruence);
    rewrite lookup_empty in Hk; destruct Hk; discriminate.
Qed.

(** X5: for a login whose state is the state derived from a request,
    [get_redirect_url] is that request's redirect URL when it is not
    empty and [None] otherwise; it reads the login only: the world
    stays and the request it is given plays no part. *)
Theorem get_redirect_url_of_request (w : World) (self : loc) (s : SocialLogin)
    (origin request : Request) :
  logins w !! self = Some s →
  state s = state_of origin →
  get_redirect_url self request w
  = (w, inr match get_next_redirect_url origin with
            | Some next_url => if decide (next_url = "") then None else Some next_url
            | None => None
            end).
Proof.
  intros Hs Hstate. unfold get_redirect_url.
  step ltac:(apply run_deref; exact Hs).
  rewrite Hstate, state_from_request_next. reflexivity.
Qed.

End StashMore.

(** ** Reconciliation and commit, continued *)

Section LifeCycle.

Variable STORE_TOKENS : bool.
Variable setup_user_email :
  Request → User.t → list EmailAddress.t →
  list (option key * EmailAddress.t) → list (option key * EmailAddress.t).

Lemma existing_lookup_refused w self acc k :
  candidate_account w self acc → SocialAccount.pk acc = Some k →
  lookup STORE_TOKENS self w = (w, inl AssertionError).
Proof.
  intros Hc Hk. unfold lookup.
  step ltac:(apply run_is_existing; exact Hc). rewrite Hk. reflexivity.
Qed.

Lemma existing_save_refused w self acc k request connect :
  candidate_account w self acc → SocialAccount.pk acc = Some k →
  save STORE_TOKENS setup_user_email self request connect w = (w, inl AssertionError).
Proof.
  intros Hc Hk. unfold save.
  step ltac:(apply run_is_existing; exact Hc). rewrite Hk. reflexivity.
Qed.

(** After [lookup] has found the stored account, the session's account
    is an instance with the row's key, whatever the token part did. *)
Lemma lookup_found_existing w self s la candidate k row ku owner :
  logins w !! self = Some s → account s = Some la →
  accounts w !! la = Some candidate →
  SocialAccount.pk candidate = None →
  stored_account w (SocialAccount.provider candidate) (SocialAccount.uid candidate) k row →
  stored_owner w row ku owner →
  candidate_account (lookup STORE_TOKENS self w).1 self
    (refreshed w k row candidate (FkObj (fresh (dom (users w))))).
Proof.
  intros Hs Hla Ha Hpk Hfound Howner.
  rewrite (lookup_found_run _ _ _ _ _ _ _ _ _ _ Hs Hla Ha Hpk Hfound Howner).
  rewrite try_pass_world.
  pose proof (frames_lookup_token STORE_TOKENS self (fresh (dom (accounts w)))
                (account_reconciled w self s k row candidate ku owner)) as Hside.
  set (w' := (lookup_token STORE_TOKENS self (fresh (dom (accounts w)))
                (account_reconciled w self s k row candidate ku owner)).1) in *.
  assert (logins (account_reconciled w self s k row candidate ku owner) !! self
          = Some (set_user (Some (fresh (dom (users w))))
                    (set_account (Some (fresh (dom (accounts w)))) s))) as Hs6
    by (cbn; apply lookup_insert_eq).
  destruct (token_side_login _ _ _ _ Hside Hs6) as (s' & Hs' & Hacc & _).
  destruct Hside as (_ & Hac & _).
  exists s', (fresh (dom (accounts w))). split; [exact Hs'|]. split; [exact Hacc|].
  rewrite Hac. cbn. apply lookup_insert_eq.
Qed.

(** X6: once [lookup] has found the stored account the session is
    existing: a second [lookup] and a [save] raise [AssertionError] and
    change nothing, whatever the outcome of the token part was. *)
Theorem reconciled_session_is_sealed (w : World) (self : loc) (s : SocialLogin)
    (la : loc) (candidate : SocialAccount.t) (k : key) (row : SocialAccount.t)
    (ku : key) (owner : User.t) (request : Request) (connect : bool) :
  logins w !! self = Some s → account s = Some la →
  accounts w !! la = Some candidate →
  SocialAccount.pk candidate = None →
  stored_account w (SocialAccount.provider candidate) (SocialAccount.uid candidate) k row →
  stored_owner w row ku owner →
  let w' := (lookup STORE_TOKENS self w).1 in
  lookup STORE_TOKENS self w' = (w', inl AssertionError)
  ∧ save STORE_TOKENS setup_user_email self request connect w' = (w', inl AssertionError).
Proof.
  intros Hs Hla Ha Hpk Hfound Howner w'.
  pose proof (lookup_found_existing _ _ _ _ _ _ _ _ _ Hs Hla Ha Hpk Hfound Howner) as Hc.
  fold w' in Hc. split.
  - eapply existing_lookup_refused; [exact Hc|reflexivity].
  - eapply existing_save_refused; [exact Hc|reflexivity].
Qed.

(** X7: [save] commits a session that is not existing when no stored
    account has the candidate's (provider, uid) pair, and once it has
    the session is existing: a second [save] and a [lookup] raise
    [AssertionError] and change nothing. *)
Theorem committed_session_is_sealed (w : World) (self : loc) (request : Request)
    (connect : bool) (s : SocialLogin) (la : loc) (candidate : SocialAccount.t)
    (lu : loc) (u : User.t) (request' : Request) (connect' : bool) :
  logins w !! self = Some s →
  account s = Some la → accounts w !! la = Some candidate →
  SocialAccount.pk candidate = None →
  no_stored_account w (SocialAccount.provider candidate) (SocialAccount.uid candidate) →
  user s = Some lu → users w !! lu = Some u →
  token_allocated w s →
  ∃ w', save STORE_TOKENS setup_user_email self request connect w = (w', inr tt)
        ∧ save STORE_TOKENS setup_user_email self request' connect' w'
          = (w', inl AssertionError)
        ∧ lookup STORE_TOKENS self w' = (w', inl AssertionError).
Proof.
  intros Hs Hla Ha Hpk Hnone Hlu Hu Htok.
  exists (committed STORE_TOKENS setup_user_email w request connect s la candidate lu u).
  split; [apply save_run; assumption|].
  assert (candidate_account
            (committed STORE_TOKENS setup_user_email w request connect s la candidate lu u)
            self (saved_account w candidate (FkObj lu))) as Hc.
  { exists s, la. cbn. rewrite lookup_insert_eq. auto. }
  split.
  - eapply existing_save_refused; [exact Hc|reflexivity].
  - eapply existing_lookup_refused; [exact Hc|reflexivity].
Qed.

(** X8: when [lookup] finds the stored account and has no token to
    store (tokens are not stored, or the session has none), it returns
    normally and reconciles the account only: tokens in memory and in
    the table and the session's token stay as they were, the candidate
    account object is neither changed nor stored (the table keeps its
    keys), and no user is stored. *)
Theorem lookup_found_without_token (w : World) (self : loc) (s : SocialLogin)
    (la : loc) (candidate : SocialAccount.t) (k : key) (row : SocialAccount.t)
    (ku : key) (owner : User.t) :
  logins w !! self = Some s → account s = Some la →
  accounts w !! la = Some candidate →
  SocialAccount.pk candidate = None →
  stored_account w (SocialAccount.provider candidate) (SocialAccount.uid candidate) k row →
  stored_owner w row ku owner →
  STORE_TOKENS && truthy (token s) = false →
  ∃ w' s',
    lookup STORE_TOKENS self w = (w', inr tt)
    ∧ logins w' !! self = Some s'
    ∧ token s' = token s
    ∧ email_addresses s' = email_addresses s ∧ state s' = state s
    ∧ tokens w' = tokens w
    ∧ SocialToken_objects w' = SocialToken_objects w
    ∧ accounts w' !! la = Some candidate
    ∧ dom (SocialAccount_objects w') = dom (SocialAccount_objects w)
    ∧ User_objects w' = User_objects w
    ∧ EmailAddress_objects w' = EmailAddress_objects w.
Proof.
  intros Hs Hla Ha Hpk Hfound Howner Hcond.
  rewrite (lookup_found_run _ _ _ _ _ _ _ _ _ _ Hs Hla Ha Hpk Hfound Howner).
  exists (account_reconciled w self s k row candidate ku owner),
         (set_user (Some (fresh (dom (users w))))
            (set_account (Some (fresh (dom (accounts w)))) s)).
  split.
  - apply run_try_ok. unfold lookup_token.
    step ltac:(apply run_deref; cbn; apply lookup_insert_eq).
    cbn [token set_user set_account]. rewrite Hcond. reflexivity.
  - cbn. split; [apply lookup_insert_eq|]. repeat (split; [reflexivity|]).
    split; [rewrite lookup_insert_ne by eauto using fresh_lookup_ne; exact Ha|].
    split; [|auto].
    destruct Hfound as (Hk & _). rewrite dom_insert_L.
    apply elem_of_dom_2 in Hk. apply subseteq_union_1_L, singleton_subseteq_l. exact Hk.
Qed.

(** X9: when [lookup] finds the stored account, tokens are stored, the
    candidate token is unsaved and no token is stored for this account
    and app, the candidate token itself is bound to the stored account
    and stored under a new key, with its values as they are; it stays
    the session's token, and the stored tokens keep their rows. *)
Theorem lookup_binds_new_token (w : World) (self : loc) (s : SocialLogin)
    (la : loc) (candidate : SocialAccount.t) (k : key) (row : SocialAccount.t)
    (ku : key) (owner : User.t) (lt : loc) (tok : SocialToken.t) :
  STORE_TOKENS = true →
  logins w !! self = Some s → account s = Some la →
  accounts w !! la = Some candidate →
  SocialAccount.pk candidate = None →
  stored_account w (SocialAccount.provider candidate) (SocialAccount.uid candidate) k row →
  stored_owner w row ku owner →
  token s = Some lt → tokens w !! lt = Some tok →
  SocialToken.pk tok = None →
  no_stored_token w k (SocialToken.app tok) →
  ∃ w' s' a kt,
    lookup STORE_TOKENS self w = (w', inr tt)
    ∧ logins w' !! self = Some s'
    ∧ token s' = Some lt ∧ account s' = Some a
    ∧ tokens w' !! lt = Some (bound_token w a (FkObj a) tok)
    ∧ SocialToken.pk (bound_token w a (FkObj a) tok) = Some kt
    ∧ SocialToken_objects w !! kt = None
    ∧ SocialToken_objects w'
      = <[kt := bound_token w a (FkId k) tok]> (SocialToken_objects w)
    ∧ SocialToken.token (bound_token w a (FkId k) tok) = SocialToken.token tok
    ∧ SocialToken.token_secret (bound_token w a (FkId k) tok) = SocialToken.token_secret tok
    ∧ SocialToken.expires_at (bound_token w a (FkId k) tok) = SocialToken.expires_at tok.
Proof.
  intros Hst Hs Hla Ha Hpk Hfound Howner Hlt Htok Htpk Hnone.
  rewrite (lookup_found_run _ _ _ _ _ _ _ _ _ _ Hs Hla Ha Hpk Hfound Howner).
  set (w6 := account_reconciled w self s k row candidate ku owner).
  set (a := fresh (dom (accounts w))).
  set (s6 := set_user (Some (fresh (dom (users w)))) (set_account (Some a) s)).
  exists (token_bound w6 lt a k tok), s6, a, (fresh (dom (SocialToken_objects w))).
  split.
  - apply run_try_ok.
    apply (lookup_token_bind_run STORE_TOKENS w6 self s6 a
             (refreshed w k row candidate (FkObj (fresh (dom (users w))))) k lt tok);
      try assumption; try reflexivity.
    + cbn. apply lookup_insert_eq.
    + cbn. apply lookup_insert_eq.
  - cbn. split; [apply lookup_insert_eq|]. split; [exact Hlt|].
    split; [reflexivity|]. split; [apply lookup_insert_eq|].
    split; [reflexivity|]. split; [apply fresh_lookup_None|].
    repeat split; reflexivity.
Qed.

(** What [lookup] leaves when it has found the stored account: the
    account row, and the owner as the session's user. *)
Lemma lookup_found_owner w self s la candidate k row ku owner :
  logins w !! self = Some s → account s = Some la →
  accounts w !! la = Some candidate →
  SocialAccount.pk candidate = None →
  stored_account w (SocialAccount.provider candidate) (SocialAccount.uid candidate) k row →
  stored_owner w row ku owner →
  let w' := (lookup STORE_TOKENS self w).1 in
  SocialAccount_objects w'
  = <[k := refreshed w k row candidate (FkId ku)]> (SocialAccount_objects w)
  ∧ ∃ s' lu, logins w' !! self = Some s' ∧ user s' = Some lu
             ∧ users w' !! lu = Some (User.set_pk (Some ku) owner).
Proof.
  intros Hs Hla Ha Hpk Hfound Howner. cbv zeta.
  rewrite (lookup_found_run _ _ _ _ _ _ _ _ _ _ Hs Hla Ha Hpk Hfound Howner).
  rewrite try_pass_world.
  pose proof (frames_lookup_token STORE_TOKENS self (fresh (dom (accounts w)))
                (account_reconciled w self s k row candidate ku owner)) as Hside.
  set (w' := (lookup_token STORE_TOKENS self (fresh (dom (accounts w)))
                (account_reconciled w self s k row candidate ku owner)).1) in *.
  assert (logins (account_reconciled w self s k row candidate ku owner) !! self
          = Some (set_user (Some (fresh (dom (users w))))
                    (set_account (Some (fresh (dom (accounts w)))) s))) as Hs6
    by (cbn; apply lookup_insert_eq).
  destruct (token_side_login _ _ _ _ Hside Hs6) as (s' & Hs' & _ & Husr & _).
  destruct Hside as (Hu & _ & _ & HA & _).
  split; [rewrite HA; reflexivity|].
  exists s', (fresh (dom (users w))). split; [exact Hs'|]. split; [exact Husr|].
  rewrite Hu. cbn. apply lookup_insert_eq.
Qed.

(** X10: what [save] stores, a later [lookup] finds.  After one session
    has been saved in a store that had no account for its (provider,
    uid) pair, [lookup] on another session with the same pair makes that
    session existing under the key [save] assigned, makes the saved
    user its user, and writes its own profile payload to the row. *)
Theorem save_then_lookup_finds (w : World) (self : loc) (request : Request)
    (connect : bool) (s : SocialLogin) (la : loc) (candidate : SocialAccount.t)
    (lu : loc) (u : User.t)
    (self2 : loc) (s2 : SocialLogin) (la2 : loc) (candidate2 : SocialAccount.t) :
  logins w !! self = Some s →
  account s = Some la → accounts w !! la = Some candidate →
  SocialAccount.pk candidate = None →
  user s = Some lu → users w !! lu = Some u →
  token_allocated w s →
  no_stored_account w (SocialAccount.provider candidate) (SocialAccount.uid candidate) →
  logins w !! self2 = Some s2 →
  account s2 = Some la2 → accounts w !! la2 = Some candidate2 → la2 ≠ la →
  SocialAccount.pk candidate2 = None →
  SocialAccount.provider candidate2 = SocialAccount.provider candidate →
  SocialAccount.uid candidate2 = SocialAccount.uid candidate →
  ∃ w1 w2 outcome ka s2' lu2 row,
    save STORE_TOKENS setup_user_email self request connect w = (w1, inr tt)
    ∧ is_existing self w1 = (w1, inr (Some ka))
    ∧ lookup STORE_TOKENS self2 w1 = (w2, outcome)
    ∧ is_existing self2 w2 = (w2, inr (Some ka))
    ∧ logins w2 !! self2 = Some s2' ∧ user s2' = Some lu2
    ∧ users w2 !! lu2 = Some (saved_user w u)
    ∧ SocialAccount_objects w2 !! ka = Some row
    ∧ SocialAccount.extra_data row = SocialAccount.extra_data candidate2
    ∧ SocialAccount.user row = FkId (key_on_save (User_objects w) (User.pk u))
    ∧ size (SocialAccount_objects w2) = S (size (SocialAccount_objects w)).
Proof.
  intros Hs Hla Ha Hpk Hlu Hu Htok Hnone Hs2 Hla2 Ha2 Hne Hpk2 Hprov Huid.
  set (w1 := committed STORE_TOKENS setup_user_email w request connect s la candidate lu u).
  set (ka := new_account_key w).
  set (ku := key_on_save (User_objects w) (User.pk u)).
  assert (logins w1 !! self2 = Some s2) as Hs2' by exact Hs2.
  assert (accounts w1 !! la2 = Some candidate2) as Ha2'.
  { unfold w1. cbn. rewrite lookup_insert_ne by congruence. exact Ha2. }
  assert (stored_account w1 (SocialAccount.provider candidate2)
            (SocialAccount.uid candidate2) ka (saved_account w candidate (FkId ku)))
    as Hfound.
  { unfold stored_account, w1. cbn. rewrite lookup_insert_eq.
    split; [reflexivity|]. split; [auto|]. split; [auto|].
    intros k' row' Hk' Hp' Hu'. destruct (decide (k' = ka)) as [|Hk]; [assumption|].
    exfalso. fold ka in Hk'. rewrite lookup_insert_ne in Hk' by congruence.
    apply (Hnone k' row' Hk'). split; congruence. }
  assert (stored_owner w1 (saved_account w candidate (FkId ku)) ku (saved_user w u))
    as Howner.
  { split; [reflexivity|]. unfold w1. cbn. apply lookup_insert_eq. }
  pose proof (lookup_found_existing _ _ _ _ _ _ _ _ _ Hs2' Hla2 Ha2' Hpk2 Hfound Howner)
    as Hex.
  pose proof (lookup_found_owner _ _ _ _ _ _ _ _ _ Hs2' Hla2 Ha2' Hpk2 Hfound Howner)
    as (Htable & s2' & lu2 & Hs2'' & Husr & Hobj).
  destruct (lookup STORE_TOKENS self2 w1) as [w2 outcome] eqn:Hlk. cbn [fst] in *.
  exists w1, w2, outcome, ka, s2', lu2, (refreshed w1 ka (saved_account w candidate (FkId ku))
                                           candidate2 (FkId ku)).
  split; [apply save_run; assumption|].
  split.
  { apply (run_is_existing _ self (saved_account w candidate (FkObj lu))).
    exists s, la. unfold w1. cbn. rewrite lookup_insert_eq. auto. }
  split; [exact Hlk|].
  split; [apply (run_is_existing _ _ _ Hex)|].
  split; [exact Hs2''|]. split; [exact Husr|]. split; [exact Hobj|].
  split; [rewrite Htable; apply lookup_insert_eq|].
  split; [reflexivity|]. split; [reflexivity|].
  rewrite Htable. unfold w1. cbn. fold ka. rewrite insert_insert_eq.
  apply map_size_insert_None, new_account_key_None.
Qed.

(** X11: when no stored account has the candidate's (provider, uid)
    pair, [save] adds to the store and overwrites no stored account: the
    account rows that were there stay, exactly one is added under a key
    that was free; a user that already has a key is written back under
    that key, a user without one gets a free key; the session's
    attributes stay; and when tokens are not stored no token is
    touched. *)
Theorem save_adds_rows (w : World) (self : loc) (request : Request)
    (connect : bool) (s : SocialLogin) (la : loc) (candidate : SocialAccount.t)
    (lu : loc) (u : User.t) :
  logins w !! self = Some s →
  account s = Some la → accounts w !! la = Some candidate →
  SocialAccount.pk candidate = None →
  no_stored_account w (SocialAccount.provider candidate) (SocialAccount.uid candidate) →
  user s = Some lu → users w !! lu = Some u →
  token_allocated w s →
  ∃ w', save STORE_TOKENS setup_user_email self request connect w = (w', inr tt)
        ∧ logins w' = logins w
        ∧ SocialAccount_objects w ⊆ SocialAccount_objects w'
        ∧ size (SocialAccount_objects w') = S (size (SocialAccount_objects w))
        ∧ (∀ ku, User.pk u = Some ku → User_objects w' = <[ku := u]> (User_objects w))
        ∧ (User.pk u = None →
             User_objects w ⊆ User_objects w'
             ∧ size (User_objects w') = S (size (User_objects w)))
        ∧ (STORE_TOKENS = false →
             tokens w' = tokens w ∧ SocialToken_objects w' = SocialToken_objects w).
Proof.
  intros Hs Hla Ha Hpk Hnone Hlu Hu Htok.
  exists (committed STORE_TOKENS setup_user_email w request connect s la candidate lu u).
  split; [apply save_run; assumption|].
  split; [reflexivity|]. cbn.
  split; [apply insert_subseteq, new_account_key_None|].
  split; [apply map_size_insert_None, new_account_key_None|].
  split.
  { intros ku Hku. unfold saved_user, key_on_save. rewrite Hku. cbn.
    destruct u; cbn in *; subst; reflexivity. }
  split.
  { intros Hnew. unfold saved_user, key_on_save. rewrite Hnew. cbn.
    split; [apply insert_subseteq, fresh_lookup_None|].
    apply map_size_insert_None, fresh_lookup_None. }
  intros Hst. rewrite (token_to_store_None _ _ _ (or_introl Hst)). auto.
Qed.

(** X12: [connect] assigns the user before [save] checks the session.
    On an existing session it raises [AssertionError] and the session's
    user is the given one all the same; nothing else changes.  On a
    session that is not existing, when no stored account has the
    candidate's (provider, uid) pair, with a user that already has a
    key, the account is stored with that user as its owner, the user
    keeps its key, and no email address is set up. *)
Theorem connect_rebinds_user (w : World) (self : loc) (request : Request)
    (s : SocialLogin) (la : loc) (candidate : SocialAccount.t) (lu' : loc) (u' : User.t)
    (ku : key) :
  logins w !! self = Some s →
  account s = Some la → accounts w !! la = Some candidate →
  users w !! lu' = Some u' → User.pk u' = Some ku →
  token_allocated w s →
  (∀ k, SocialAccount.pk candidate = Some k →
     connect STORE_TOKENS setup_user_email self request (Some lu') w
     = (cell_set logins_cell (<[self := set_user (Some lu') s]> (logins w)) w,
        inl AssertionError))
  ∧ (SocialAccount.pk candidate = None →
     no_stored_account w (SocialAccount.provider candidate) (SocialAccount.uid candidate) →
     ∃ w' ka row,
       connect STORE_TOKENS setup_user_email self request (Some lu') w = (w', inr tt)
       ∧ logins w' !! self = Some (set_user (Some lu') s)
       ∧ is_existing self w' = (w', inr (Some ka))
       ∧ SocialAccount_objects w' !! ka = Some row
       ∧ SocialAccount.user row = FkId ku
       ∧ User_objects w' = <[ku := u']> (User_objects w)
       ∧ EmailAddress_objects w' = EmailAddress_objects w).
Proof.
  intros Hs Hla Ha Hu Hku Htok.
  set (w0 := cell_set logins_cell (<[self := set_user (Some lu') s]> (logins w)) w).
  assert (logins w0 !! self = Some (set_user (Some lu') s)) as Hs0
    by (cbn; apply lookup_insert_eq).
  split.
  - intros k Hpk. unfold connect. step_setattr. fold w0.
    apply (existing_save_refused w0 self candidate k); [|exact Hpk].
    exists (set_user (Some lu') s), la. auto.
  - intros Hpk Hnone.
    exists (committed STORE_TOKENS setup_user_email w0 request true
              (set_user (Some lu') s) la candidate lu' u'),
           (new_account_key w),
           (saved_account w0 candidate (FkId ku)).
    split.
    { unfold connect. step_setattr. fold w0.
      apply save_run; try assumption; try reflexivity. }
    cbn. split; [apply lookup_insert_eq|].
    split.
    { apply (run_is_existing _ self (saved_account w0 candidate (FkObj lu'))).
      eexists _, la. cbn. rewrite !lookup_insert_eq. auto. }
    unfold saved_user, key_on_save. rewrite Hku. cbn.
    split; [apply lookup_insert_eq|]. split; [reflexivity|].
    split; [|reflexivity].
    destruct u'; cbn in *; subst; reflexivity.
Qed.

(** X18: when a stored account has the candidate's (provider, uid)
    pair, [save] on a session that is not existing does not commit: the
    store refuses the account and [IntegrityError] is raised; no account,
    token or email address is stored and the session stays not
    existing. *)
Theorem save_refused_when_stored (w : World) (self : loc) (request : Request)
    (connect : bool) (s : SocialLogin) (la : loc) (candidate : SocialAccount.t)
    (lu : loc) (u : User.t) (k : key) (row : SocialAccount.t) :
  logins w !! self = Some s →
  account s = Some la → accounts w !! la = Some candidate →
  SocialAccount.pk candidate = None →
  user s = Some lu → users w !! lu = Some u →
  SocialAccount_objects w !! k = Some row →
  SocialAccount.provider row = SocialAccount.provider candidate →
  SocialAccount.uid row = SocialAccount.uid candidate →
  ∃ w', save STORE_TOKENS setup_user_email self request connect w
        = (w', inl IntegrityError)
        ∧ SocialAccount_objects w' = SocialAccount_objects w
        ∧ SocialToken_objects w' = SocialToken_objects w
        ∧ EmailAddress_objects w' = EmailAddress_objects w
        ∧ is_existing self w' = (w', inr None).
Proof.
  intros Hs Hla Ha Hpk Hlu Hu Hk Hprov Huid.
  assert (conflicts (account_matches (SocialAccount.provider candidate)
                       (SocialAccount.uid candidate))
            (SocialAccount_objects w) (new_account_key w) = true) as Htaken.
  { apply (conflicts_true _ _ _ k row Hk).
    - apply bool_decide_eq_true_2. auto.
    - intros ->. rewrite new_account_key_None in Hk. discriminate. }
  exists (cell_set accounts_cell
            (<[la := auto_now (now w) true (SocialAccount.set_user (FkObj lu) candidate)]>
               (accounts w))
            (cell_set User_table
               (<[key_on_save (User_objects w) (User.pk u) := saved_user w u]> (User_objects w))
               (cell_set users_cell (<[lu := saved_user w u]> (users w)) w))).
  split; [|split; [reflexivity|split; [reflexivity|split; [reflexivity|]]]].
  - unfold save.
    step ltac:(apply run_is_existing; exists s, la; eauto).
    rewrite Hpk. cbn [truthy negb assert].
    step ltac:(reflexivity).
    step_deref. rewrite Hlu, Hla.
    step ltac:(apply run_User_save; eassumption).
    step_setattr.
    apply run_bind_raise.
    unfold SocialAccount_save. step_deref.
    cbn [SocialAccount.user SocialAccount.set_user assigned].
    step ltac:(unfold related_id; step_deref; reflexivity).
    cbn [SocialAccount.pk SocialAccount.set_user SocialAccount.provider SocialAccount.uid].
    rewrite Hpk.
    step ltac:(apply (run_new_account_key _ (new_account_key w)); reflexivity).
    step ltac:(reflexivity).
    step ltac:(reflexivity).
    step ltac:(reflexivity).
    rewrite new_account_key_None, bool_decide_eq_true_2 by reflexivity.
    rewrite Htaken. cbn [refused User.pk User.set_pk saved_user].
    step_setattr. rewrite insert_insert_eq. reflexivity.
  - erewrite run_is_existing.
    2:{ exists s, la. cbn. rewrite lookup_insert_eq. auto. }
    cbn [auto_now SocialAccount.pk SocialAccount.set_last_login
         SocialAccount.set_date_joined SocialAccount.set_user].
    rewrite Hpk. reflexivity.
Qed.

(** X19: the constructor reads [token.account], which is not null: for
    a token whose account was never set the read raises
    [RelatedObjectDoesNotExist] before the comparison with [None], and no
    session is built. *)
Theorem init_unset_token_account_raises (w : World) (usr acct : option loc)
    (lt : loc) (tok : SocialToken.t) (eas : list EmailAddress.t) :
  tokens w !! lt = Some tok →
  SocialToken.account tok = FkUnset →
  __init__ usr acct (Some lt) eas w = (w, inl (DoesNotExist SocialAccountModel)).
Proof.
  intros Ht Hfk. unfold __init__. cbn [truthy].
  apply run_bind_raise, run_bind_raise.
  unfold token_account_ok. apply run_bind_raise.
  unfold SocialToken_account, getattr_fk. step_deref. rewrite Hfk. reflexivity.
Qed.

End LifeCycle.

(** ** The current application and its cache on the request *)

Section CurrentApp.

Variable get_current_site : option RequestObject → positive.

(** X13: an application that the request's cache holds for the provider
    is returned as it is, whatever the table of applications and the
    current site are; the request stays as it was. *)
Theorem get_current_hit (SocialApp_objects : gmap key SocialApp.t) (provider : string)
    (r : RequestObject) (cache : gmap string SocialApp.t) (app : SocialApp.t) :
  _socialapp_cache r = Some cache →
  cache !! provider = Some app →
  get_current get_current_site SocialApp_objects provider (Some r) = (Some r, inr app).
Proof.
  intros Hcache Happ. unfold get_current. rewrite Hcache. cbn. rewrite Happ.
  destruct r as [h c]. cbn in *. subst c. reflexivity.
Qed.

(** X14: on a request whose cache has no application for the provider,
    the one stored application of the current site and provider is
    returned and put into the request's cache under the provider, the
    other cache entries staying; a later call on that request returns
    the same application from the cache, whatever the table and the
    current site are by then. *)
Theorem get_current_fills_cache (SocialApp_objects : gmap key SocialApp.t)
    (provider : string) (r : RequestObject) (app : SocialApp.t) :
  let cache := default ∅ (_socialapp_cache r) in
  let seen := Some (set_socialapp_cache cache r) in
  cache !! provider = None →
  SocialApp_objects_get SocialApp_objects (get_current_site seen) provider = inr app →
  ∃ r',
    get_current get_current_site SocialApp_objects provider (Some r) = (Some r', inr app)
    ∧ http r' = http r
    ∧ _socialapp_cache r' = Some (<[provider := app]> cache)
    ∧ ∀ later_site later_objects,
        get_current later_site later_objects provider (Some r') = (Some r', inr app).
Proof.
  intros cache seen Hmiss Hget.
  exists (set_socialapp_cache (<[provider := app]> cache) r).
  split; [|split; [reflexivity|split; [reflexivity|]]].
  - unfold get_current. fold cache. rewrite Hmiss. cbn [fmap option_fmap option_map].
    fold seen. rewrite Hget. reflexivity.
  - intros later_site later_objects. unfold get_current. cbn.
    rewrite lookup_insert_eq. reflexivity.
Qed.

(** X15: a failed query is not cached.  When the store has no single
    application for the current site and provider, [get_current] fails
    with the query's error; the request then has a cache attribute (the
    old cache, or an empty one) with no entry for the provider, so a
    later call on it queries the table again. *)
Theorem get_current_failure_not_cached (SocialApp_objects : gmap key SocialApp.t)
    (provider : string) (r : RequestObject) (e : app_exn) :
  let cache := default ∅ (_socialapp_cache r) in
  let seen := set_socialapp_cache cache r in
  cache !! provider = None →
  SocialApp_objects_get SocialApp_objects (get_current_site (Some seen)) provider = inl e →
  get_current get_current_site SocialApp_objects provider (Some r) = (Some seen, inl e)
  ∧ ∀ later_objects,
      (get_current get_current_site later_objects provider (Some seen)).2
      = SocialApp_objects_get later_objects (get_current_site (Some seen)) provider.
Proof.
  intros cache seen Hmiss Hget. split.
  - unfold get_current. fold cache. rewrite Hmiss. cbn [fmap option_fmap option_map].
    fold seen. rewrite Hget. reflexivity.
  - intros later_objects. unfold get_current.
    change (default ∅ (_socialapp_cache seen)) with cache.
    rewrite Hmiss. cbn [fmap option_fmap option_map].
    change (set_socialapp_cache cache seen) with seen.
    destruct (SocialApp_objects_get later_objects (get_current_site (Some seen)) provider);
      reflexivity.
Qed.

(** Without a request nothing is cached: every call is the query for the
    site that [get_current_site] gives for no request. *)
Lemma get_current_without_request (SocialApp_objects : gmap key SocialApp.t)
    (provider : string) :
  get_current get_current_site SocialApp_objects provider None
  = (None, SocialApp_objects_get SocialApp_objects (get_current_site None) provider).
Proof.
  unfold get_current. cbn. rewrite lookup_empty.
  destruct (SocialApp_objects_get SocialApp_objects (get_current_site None) provider);
    reflexivity.
Qed.

End CurrentApp.

(** ** Serialization, continued *)

Lemma run_getitem_missing {S V} (data : gmap string V) k (s : S) :
  data !! k = None → getitem data k s = (s, inl (KeyError k)).
Proof. intros E. unfold getitem. rewrite E. reflexivity. Qed.

Lemma run_outcome {S A} (m : M S A) (s s' : S) (r : exn + A) :
  m s = (s', r) → (m s).2 = r.
Proof. intros E. rewrite E. reflexivity. Qed.

Section SerializeMore.

Context {Blob : Type}.
Context `{!InstanceCodec Blob User.t, !InstanceCodec Blob SocialAccount.t,
          !InstanceCodec Blob SocialToken.t, !InstanceCodec Blob EmailAddress.t}.

(** X16: [serialize] only reads: whatever the session refers to and
    whatever the outcome, the world after it is the world before. *)
Theorem serialize_reads_only (w : World) (self : loc) :
  (serialize self w).1 = w.
Proof.
  symmetry. revert w. change (frames eq (serialize self)). unfold serialize.
  apply (frames_bind eq); [apply (frames_deref eq)|]. intros s.
  apply (frames_bind eq); [apply (frames_deref eq)|]. intros a.
  apply (frames_bind eq); [apply (frames_deref eq)|]. intros u.
  destruct (truthy (token s)); [|apply (frames_ret eq)].
  apply (frames_bind eq); [apply (frames_deref eq)|]. intros t.
  apply (frames_ret eq).
Qed.

Context `{!CodecLaw Blob User.t, !CodecLaw Blob SocialAccount.t,
          !CodecLaw Blob SocialToken.t, !CodecLaw Blob EmailAddress.t}.

Ltac item_of :=
  step ltac:(apply run_getitem;
             repeat first [rewrite lookup_delete_ne by discriminate
                          | rewrite lookup_insert_ne by discriminate];
             apply lookup_insert_eq).

Ltac decoded := step ltac:(unfold lift; rewrite codec_roundtrip; reflexivity).

Ltac missing :=
  repeat (apply run_bind_raise);
  apply run_getitem_missing;
  repeat first [rewrite lookup_delete_ne by discriminate
               | rewrite lookup_insert_ne by discriminate];
  first [apply lookup_delete_eq | apply lookup_empty].

Ltac token_item :=
  repeat first [rewrite lookup_delete_ne by discriminate
               | rewrite lookup_insert_ne by discriminate];
  first [rewrite lookup_insert_eq;
         step ltac:(step ltac:(reflexivity); decoded; step ltac:(reflexivity); reflexivity)
        | rewrite lookup_empty; step ltac:(reflexivity)].

(** X17: of the keys that [serialize] writes only "token" is optional
    for [deserialize]: the serialized form of a session with any one of
    "account", "user", "email_addresses" and "state" removed is refused
    with [KeyError] for that key. *)
Theorem deserialize_needs_every_key (w : World) (self : loc) (s : SocialLogin)
    (la : loc) (a : SocialAccount.t) (lu : loc) (u : User.t) (w2 : World) :
  logins w !! self = Some s →
  account s = Some la → accounts w !! la = Some a →
  user s = Some lu → users w !! lu = Some u →
  (∀ lt, token s = Some lt → is_Some (tokens w !! lt)) →
  ∃ data,
    serialize self w = (w, inr data)
    ∧ (deserialize (delete "account" data) w2).2 = inl (KeyError "account")
    ∧ (deserialize (delete "user" data) w2).2 = inl (KeyError "user")
    ∧ (deserialize (delete "email_addresses" data) w2).2
      = inl (KeyError "email_addresses")
    ∧ (deserialize (delete "state" data) w2).2 = inl (KeyError "state").
Proof.
  intros Hs Hla Ha Hlu Hu Htok.
  destruct (token s) as [lt|] eqn:Hlt.
  - destruct (Htok lt eq_refl) as [t Ht].
    eexists. split.
    { unfold serialize. step_deref. rewrite Hla, Hlu, Hlt.
      step_deref. step_deref. cbn [truthy]. step_deref. reflexivity. }
    split; [|split; [|split]].
    + eapply run_outcome. unfold deserialize. missing.
    + eapply run_outcome. unfold deserialize.
      step ltac:(item_of; step ltac:(reflexivity); decoded; reflexivity).
      missing.
    + eapply run_outcome. unfold deserialize.
      step ltac:(item_of; step ltac:(reflexivity); decoded; reflexivity).
      step ltac:(item_of; step ltac:(reflexivity); decoded; reflexivity).
      token_item.
      missing.
    + eapply run_outcome. unfold deserialize.
      step ltac:(item_of; step ltac:(reflexivity); decoded; reflexivity).
      step ltac:(item_of; step ltac:(reflexivity); decoded; reflexivity).
      token_item.
      step ltac:(item_of; step ltac:(reflexivity); apply run_deserialize_each).
      step ltac:(reflexivity).
      step_setattr. rewrite insert_insert_eq.
      step_setattr. rewrite insert_insert_eq.
      step_setattr. rewrite insert_insert_eq.
      step_setattr. rewrite insert_insert_eq.
      missing.
  - eexists. split.
    { unfold serialize. step_deref. rewrite Hla, Hlu, Hlt.
      step_deref. step_deref. reflexivity. }
    split; [|split; [|split]].
    + eapply run_outcome. unfold deserialize. missing.
    + eapply run_outcome. unfold deserialize.
      step ltac:(item_of; step ltac:(reflexivity); decoded; reflexivity).
      missing.
    + eapply run_outcome. unfold deserialize.
      step ltac:(item_of; step ltac:(reflexivity); decoded; reflexivity).
      step ltac:(item_of; step ltac:(reflexivity); decoded; reflexivity).
      token_item.
      missing.
    + eapply run_outcome. unfold deserialize.
      step ltac:(item_of; step ltac:(reflexivity); decoded; reflexivity).
      step ltac:(item_of; step ltac:(reflexivity); decoded; reflexivity).
      token_item.
      step ltac:(item_of; step ltac:(reflexivity); apply run_deserialize_each).
      step ltac:(reflexivity).
      step_setattr. rewrite insert_insert_eq.
      step_setattr. rewrite insert_insert_eq.
      step_setattr. rewrite insert_insert_eq.
      step_setattr. rewrite insert_insert_eq.
      missing.
Qed.

End SerializeMore.

(** ** The further properties, run *)

Lemma stash_overwrites_witness :
  ∃ second, (stash_state next_of param_of "v2"
               (stash_state next_of param_of "v1" plain_request).1).1 = second
            ∧ (verify_and_unstash_state "v1" second).2 = inl PermissionDenied.
Proof.
  destruct (stash_overwrites next_of param_of "v1" "v2" plain_request)
    as (first & second & H1 & H2 & _ & Hv1 & _).
  exists second. rewrite H1. cbn [fst]. rewrite H2. split; [reflexivity|].
  apply Hv1. discriminate.
Defined.

Lemma stash_touches_one_key_witness :
  session (stash_state next_of param_of "v1" plain_request).1 !! "other"
  = session plain_request !! "other".
Proof.
  apply (stash_touches_one_key next_of param_of "v1" "v1" plain_request "other").
  discriminate.
Defined.

Lemma get_redirect_url_of_request_witness :
  get_redirect_url 1%positive plain_request
    (callback (candidate_token_a2 None FkUnset)
       {[1%positive := mkSocialLogin None None None []
                         (state_from_request next_of param_of plain_request)]} ∅ ∅ ∅)
  = (callback (candidate_token_a2 None FkUnset)
       {[1%positive := mkSocialLogin None None None []
                         (state_from_request next_of param_of plain_request)]} ∅ ∅ ∅,
     inr None).
Proof.
  apply (get_redirect_url_of_request next_of param_of _ 1%positive
           (mkSocialLogin None None None []
              (state_from_request next_of param_of plain_request))
           plain_request plain_request).
  - reflexivity.
  - reflexivity.
Defined.

Lemma reconciled_session_is_sealed_witness :
  (save true add_verified 1%positive plain_request false
     (lookup true 1%positive returning_user).1).2 = inl AssertionError.
Proof.
  destruct (reconciled_session_is_sealed true add_verified returning_user 1%positive
              octocat_login 1%positive github_candidate 7%positive github_stored
              3%positive alice plain_request false) as [_ H].
  - reflexivity.
  - reflexivity.
  - reflexivity.
  - reflexivity.
  - apply stored_account_of_select. vm_compute. reflexivity.
  - split; reflexivity.
  - rewrite H. reflexivity.
Defined.

Lemma committed_session_is_sealed_witness :
  ∃ w', save true add_verified 1%positive plain_request false first_login = (w', inr tt)
        ∧ lookup true 1%positive w' = (w', inl AssertionError).
Proof.
  destruct (committed_session_is_sealed true add_verified first_login 1%positive
              plain_request false octocat_login 1%positive github_candidate
              1%positive prefilled_user plain_request false)
    as (w' & Hsave & _ & Hlookup).
  - reflexivity.
  - reflexivity.
  - reflexivity.
  - reflexivity.
  - apply no_stored_account_of_select. vm_compute. reflexivity.
  - reflexivity.
  - reflexivity.
  - intros lt Hlt. inversion Hlt. eexists. reflexivity.
  - exists w'. split; assumption.
Defined.

Lemma lookup_found_without_token_witness :
  ∃ w', lookup false 1%positive returning_user = (w', inr tt)
        ∧ SocialToken_objects w' = SocialToken_objects returning_user.
Proof.
  destruct (lookup_found_without_token false returning_user 1%positive octocat_login
              1%positive github_candidate 7%positive github_stored 3%positive alice)
    as (w' & s' & H & _ & _ & _ & _ & _ & Htable & _).
  - reflexivity.
  - reflexivity.
  - reflexivity.
  - reflexivity.
  - apply stored_account_of_select. vm_compute. reflexivity.
  - split; reflexivity.
  - reflexivity.
  - exists w'. split; assumption.
Defined.

Lemma lookup_binds_new_token_witness :
  ∃ w', lookup true 1%positive returning_user_new_token = (w', inr tt)
        ∧ SocialToken_objects w' !! 1%positive
          = Some (SocialToken.mk (Some 1%positive) 1%positive (FkId 7%positive)
                    true "a2" "" None).
Proof.
  destruct (lookup_binds_new_token true returning_user_new_token 1%positive octocat_login
              1%positive github_candidate 7%positive github_stored 3%positive alice
              1%positive (candidate_token_a2 None FkUnset))
    as (w' & s' & a & kt & H & _ & _ & _ & _ & Hkt & _ & Htable & _).
  - reflexivity.
  - reflexivity.
  - reflexivity.
  - reflexivity.
  - reflexivity.
  - apply stored_account_of_select. vm_compute. reflexivity.
  - split; reflexivity.
  - reflexivity.
  - reflexivity.
  - reflexivity.
  - apply no_stored_token_of_select. vm_compute. reflexivity.
  - exists w'. split; [exact H|]. rewrite Htable.
    cbn in Hkt. injection Hkt as <-. vm_compute. reflexivity.
Defined.

Lemma save_then_lookup_finds_witness :
  ∃ w1 w2 outcome,
    save true add_verified 1%positive plain_request false two_callbacks = (w1, inr tt)
    ∧ lookup true 2%positive w1 = (w2, outcome).
Proof.
  destruct (save_then_lookup_finds true add_verified two_callbacks 1%positive
              plain_request false octocat_login 1%positive github_candidate
              1%positive prefilled_user 2%positive second_login 2%positive
              second_candidate)
    as (w1 & w2 & outcome & ka & s2' & lu2 & row & Hsave & _ & Hlookup & _).
  - reflexivity.
  - reflexivity.
  - reflexivity.
  - reflexivity.
  - reflexivity.
  - reflexivity.
  - intros lt Hlt. inversion Hlt. eexists. reflexivity.
  - apply no_stored_account_of_select. vm_compute. reflexivity.
  - reflexivity.
  - reflexivity.
  - reflexivity.
  - discriminate.
  - reflexivity.
  - reflexivity.
  - reflexivity.
  - exists w1, w2, outcome. split; assumption.
Defined.

Lemma save_adds_rows_witness :
  ∃ w', save false add_verified 1%positive plain_request false first_login = (w', inr tt)
        ∧ size (SocialAccount_objects w') = 1.
Proof.
  destruct (save_adds_rows false add_verified first_login 1%positive plain_request
              false octocat_login 1%positive github_candidate 1%positive prefilled_user)
    as (w' & Hsave & _ & _ & Hsize & _).
  - reflexivity.
  - reflexivity.
  - reflexivity.
  - reflexivity.
  - apply no_stored_account_of_select. vm_compute. reflexivity.
  - reflexivity.
  - reflexivity.
  - intros lt Hlt. inversion Hlt. eexists. reflexivity.
  - exists w'. split; [exact Hsave|]. rewrite Hsize. reflexivity.
Defined.

Lemma connect_rebinds_user_witness :
  ∃ w', connect true add_verified 1%positive plain_request (Some 1%positive) connecting
        = (w', inr tt)
        ∧ EmailAddress_objects w' = [].
Proof.
  destruct (connect_rebinds_user true add_verified connecting 1%positive plain_request
              octocat_login 1%positive github_candidate 1%positive alice 3%positive)
    as [_ H].
  - reflexivity.
  - reflexivity.
  - reflexivity.
  - reflexivity.
  - reflexivity.
  - intros lt Hlt. inversion Hlt. eexists. reflexivity.
  - destruct (H eq_refl) as (w' & ka & row & Hc & _ & _ & _ & _ & _ & Hemails).
    + apply no_stored_account_of_select. vm_compute. reflexivity.
    + exists w'. split; assumption.
Defined.

Lemma save_refused_when_stored_witness :
  ∃ w', save true add_verified 1%positive plain_request true connecting_stored
        = (w', inl IntegrityError)
        ∧ is_existing 1%positive w' = (w', inr None).
Proof.
  destruct (save_refused_when_stored true add_verified connecting_stored 1%positive
              plain_request true octocat_login 1%positive github_candidate
              1%positive alice 7%positive github_stored)
    as (w' & Hsave & _ & _ & _ & Hnew).
  - reflexivity.
  - reflexivity.
  - reflexivity.
  - reflexivity.
  - reflexivity.
  - reflexivity.
  - reflexivity.
  - reflexivity.
  - reflexivity.
  - exists w'. split; assumption.
Defined.

Lemma init_unset_token_account_raises_witness :
  __init__ (Some 1%positive) (Some 1%positive) (Some 1%positive) [] first_login
  = (first_login, inl (DoesNotExist SocialAccountModel)).
Proof.
  apply (init_unset_token_account_raises first_login (Some 1%positive) (Some 1%positive)
           1%positive (candidate_token_a2 None FkUnset) []).
  - reflexivity.
  - reflexivity.
Defined.

Lemma get_current_hit_witness :
  get_current first_site ∅ "github"
    (Some (mkRequestObject plain_request (Some {["github" := github_app]})))
  = (Some (mkRequestObject plain_request (Some {["github" := github_app]})),
     inr github_app).
Proof.
  apply (get_current_hit first_site ∅ "github"
           (mkRequestObject plain_request (Some {["github" := github_app]}))
           {["github" := github_app]} github_app).
  - reflexivity.
  - reflexivity.
Defined.

Lemma get_current_fills_cache_witness :
  ∃ r', get_current first_site {[4%positive := github_app]} "github" (Some bare_request)
        = (Some r', inr (SocialApp.set_pk (Some 4%positive) github_app))
        ∧ get_current first_site ∅ "github" (Some r')
          = (Some r', inr (SocialApp.set_pk (Some 4%positive) github_app)).
Proof.
  destruct (get_current_fills_cache first_site {[4%positive := github_app]} "github"
              bare_request (SocialApp.set_pk (Some 4%positive) github_app))
    as (r' & H & _ & _ & Hlater).
  - reflexivity.
  - vm_compute. reflexivity.
  - exists r'. split; [exact H|]. apply Hlater.
Defined.

Lemma get_current_failure_not_cached_witness :
  (get_current first_site ∅ "github" (Some bare_request)).2 = inl SocialApp_DoesNotExist.
Proof.
  destruct (get_current_failure_not_cached first_site ∅ "github" bare_request
              SocialApp_DoesNotExist) as [H _].
  - reflexivity.
  - vm_compute. reflexivity.
  - rewrite H. reflexivity.
Defined.

Lemma deserialize_needs_every_key_witness :
  ∃ data, @serialize instance user_codec account_codec token_codec email_codec
            1%positive returning_user = (returning_user, inr data)
          ∧ (@deserialize instance user_codec account_codec token_codec email_codec
               (delete "state" data) first_login).2 = inl (KeyError "state").
Proof.
  destruct (@deserialize_needs_every_key instance user_codec account_codec token_codec
              email_codec (λ x, eq_refl) (λ x, eq_refl) (λ x, eq_refl) (λ x, eq_refl)
              returning_user 1%positive octocat_login 1%positive github_candidate
              1%positive prefilled_user first_login)
    as (data & Hser & _ & _ & _ & Hstate).
  - reflexivity.
  - reflexivity.
  - reflexivity.
  - reflexivity.
  - reflexivity.
  - intros lt Hlt. inversion Hlt. eexists. reflexivity.
  - exists data. split; assumption.
Defined.

Lemma stash_then_verify_witness :
  ∃ stored, stash_state next_of param_of "v1" plain_request = (stored, inr "v1")
            ∧ (verify_and_unstash_state "wrong" stored).2 = inl PermissionDenied.
Proof.
  destruct (stash_then_verify next_of param_of "v1" plain_request)
    as (stored & popped & Hstash & _ & _ & _ & Hother).
  exists stored. split; [exact Hstash|]. rewrite (Hother "wrong"); [reflexivity|discriminate].
Defined.

Lemma state_from_request_entries_witness :
  state_from_request next_of param_of plain_request !! "process" = Some "login"
  ∧ ¬ is_Some (state_from_request next_of param_of plain_request !! "verifier").
Proof.
  destruct (state_from_request_entries next_of param_of plain_request)
    as (Hprocess & _ & _ & _ & Honly).
  split; [exact Hprocess|].
  intros Hsome. destruct (Honly "verifier" Hsome) as [H|[H|[H|H]]]; discriminate.
Defined.
